(** * httpauth: HTTP Basic authentication as an [http.Handler]

    A shallow embedding of [httpauth.go] (package [httpauth]) and of the
    parts of the Go standard library its request path goes through:
    [strings.Split], [textproto.CanonicalMIMEHeaderKey], [http.Header],
    [base64.StdEncoding] and the response writer the package's test
    uses, [httptest.ResponseRecorder].

    Go strings are byte sequences; they are modelled by [string], whose
    characters are the 8-bit [ascii].  Machine integers are modelled by
    [Z] with the bit operations of the Go code written out. *)

From Stdlib Require Import ZArith Ascii String List Lia Bool.
From stdpp Require Import base gmap strings.
Import ListNotations.

Local Open Scope string_scope.
Local Open Scope list_scope.

(** ** package strings *)

Module strings.

(** [strings.Split(s, sep)] for a separator of one byte, which is what
    both call sites of [ServeHTTP] pass: the substrings of [s] between
    the occurrences of [sep], in order.  The result is never empty:
    [Split("", sep)] is the one-element slice holding the empty
    string. *)
Fixpoint Split (s : string) (sep : ascii) : list string :=
  match s with
  | EmptyString => [EmptyString]
  | String c s' =>
      if Ascii.eqb c sep then EmptyString :: Split s' sep
      else match Split s' sep with
           | piece :: rest => String c piece :: rest
           | [] => [String c EmptyString]
           end
  end.

(** [strings.Count(s, sep)] for a separator of one byte. *)
Fixpoint Count (s : string) (sep : ascii) : nat :=
  match s with
  | EmptyString => 0
  | String c s' => (if Ascii.eqb c sep then 1 else 0) + Count s' sep
  end.

End strings.

(** The bytes the code names. *)
Definition space : ascii := " "%char.
Definition colon : ascii := ":"%char.
Definition dquote : ascii := "034"%char.
Definition padChar : ascii := "="%char.
Definition LF : ascii := "010"%char.
Definition CR : ascii := "013"%char.

(** ** package net/textproto and the type [http.Header] *)

Module textproto.

Definition byte_val (c : ascii) : Z := Z.of_N (N_of_ascii c).

Definition is_lower (c : ascii) : bool :=
  (byte_val "a" <=? byte_val c)%Z && (byte_val c <=? byte_val "z")%Z.
Definition is_upper (c : ascii) : bool :=
  (byte_val "A" <=? byte_val c)%Z && (byte_val c <=? byte_val "Z")%Z.
Definition is_digit (c : ascii) : bool :=
  (byte_val "0" <=? byte_val c)%Z && (byte_val c <=? byte_val "9")%Z.

(** The token bytes of RFC 7230. *)
Definition validHeaderFieldByte (c : ascii) : bool :=
  is_lower c || is_upper c || is_digit c
  || existsb (Ascii.eqb c) (list_ascii_of_string "!#$%&'*+-.^_`|~").

Definition toLower : Z := byte_val "a" - byte_val "A".

Definition shift (c : ascii) (d : Z) : ascii :=
  ascii_of_N (Z.to_N (byte_val c + d)).

(** The second loop of [canonicalMIMEHeaderKey]: upper case at the
    start and after each dash, lower case elsewhere. *)
Fixpoint canonicalize (upper : bool) (a : string) : string :=
  match a with
  | EmptyString => EmptyString
  | String c a' =>
      let c' := if upper && is_lower c then shift c (- toLower)
                else if negb upper && is_upper c then shift c toLower
                else c in
      String c' (canonicalize (Ascii.eqb c' "-") a')
  end.

(** A key with a byte that is not a token byte is returned as it is. *)
Definition CanonicalMIMEHeaderKey (s : string) : string :=
  if forallb validHeaderFieldByte (list_ascii_of_string s)
  then canonicalize true s else s.

End textproto.

Module http.

(** [type Header map[string][]string] *)
Abbreviation Header := (gmap string (list string)).

(** [func (h Header) Get(key string) string]: the first value of the
    canonical key, the empty string when there is none. *)
Definition Header_Get (h : Header) (key : string) : string :=
  match h !! textproto.CanonicalMIMEHeaderKey key with
  | Some (v :: _) => v
  | _ => EmptyString
  end.

(** [func (h Header) Add(key, value string)] *)
Definition Header_Add (h : Header) (key value : string) : Header :=
  let k := textproto.CanonicalMIMEHeaderKey key in
  <[k := default [] (h !! k) ++ [value]]> h.

(** [func (h Header) Values(key string) []string] *)
Definition Header_Values (h : Header) (key : string) : list string :=
  default [] (h !! textproto.CanonicalMIMEHeaderKey key).

(** The fields of [http.Request] a handler can tell requests apart by. *)
Record Request := {
  Method : string;
  URL : string;
  Header_ : Header;
  Body_ : string
}.

Definition StatusOK : Z := 200.
Definition StatusUnauthorized : Z := 401.

End http.

(** ** [httptest.ResponseRecorder], the [http.ResponseWriter] of the test *)

Module httptest.

Record ResponseRecorder := {
  Code : Z;
  HeaderMap : http.Header;
  Body : string;
  wroteHeader : bool
}.

Definition NewRecorder : ResponseRecorder :=
  {| Code := 200; HeaderMap := ∅; Body := EmptyString; wroteHeader := false |}.

(** [w.Header().Add(key, value)] *)
Definition Header_Add (key value : string) (rw : ResponseRecorder)
  : ResponseRecorder :=
  {| Code := Code rw;
     HeaderMap := http.Header_Add (HeaderMap rw) key value;
     Body := Body rw;
     wroteHeader := wroteHeader rw |}.

(** [w.WriteHeader(code)]: the first call fixes the status, later
    calls are ignored. *)
Definition WriteHeader (code : Z) (rw : ResponseRecorder)
  : ResponseRecorder :=
  if wroteHeader rw then rw
  else {| Code := code;
          HeaderMap := HeaderMap rw;
          Body := Body rw;
          wroteHeader := true |}.

(** [w.Write(buf)]: writes the header with status 200 if it was not
    written yet, then appends to the body. *)
Definition Write (buf : string) (rw : ResponseRecorder)
  : ResponseRecorder :=
  let rw' := WriteHeader 200 rw in
  {| Code := Code rw';
     HeaderMap := HeaderMap rw';
     Body := Body rw' ++ buf;
     wroteHeader := wroteHeader rw' |}.

End httptest.

(** ** package encoding/base64: [StdEncoding] *)

Module base64.

Import textproto.

Definition encodeStd : string :=
  "ABCDEFGHIJKLMNOPQRSTUVWXYZabcdefghijklmnopqrstuvwxyz0123456789+/".

(** [enc.encode[i]], the [64]byte array of the alphabet. *)
Definition encode (i : Z) : ascii :=
  nth (Z.to_nat i) (list_ascii_of_string encodeStd) zero.

(** [enc.decodeMap]: 256 entries, all set to [0xFF], then
    [decodeMap[encoder[i]] = byte(i)] for each [i]. *)
Fixpoint fill (encoder : list ascii) (i : Z) (m : ascii -> Z) : ascii -> Z :=
  match encoder with
  | [] => m
  | e :: encoder' =>
      fill encoder' (i + 1) (fun c => if Ascii.eqb c e then i else m c)
  end.

Definition decodeMap : ascii -> Z :=
  fill (list_ascii_of_string encodeStd) 0 (fun _ => 255)%Z.

(** [byte(v)]: the conversion of a [uint] to a byte. *)
Definition byte (v : Z) : ascii := ascii_of_N (Z.to_N (Z.land v 255)).

(** *** Encoding *)

(** [val>>k&0x3F] and [enc.encode[val>>k&0x3F]] *)
Definition six (val k : Z) : Z := Z.land (Z.shiftr val k) 63.

Definition sextet (val k : Z) : ascii := encode (six val k).

(** [enc.EncodeToString([]byte(src))]: three bytes become four
    characters; a remainder of one or two bytes is padded with [=]. *)
Fixpoint EncodeToString (src : string) : string :=
  match src with
  | String b0 (String b1 (String b2 rest)) =>
      let val := Z.lor (Z.lor (Z.shiftl (byte_val b0) 16)
                              (Z.shiftl (byte_val b1) 8))
                       (byte_val b2) in
      String (sextet val 18) (String (sextet val 12)
        (String (sextet val 6) (String (sextet val 0)
          (EncodeToString rest))))
  | String b0 (String b1 EmptyString) =>
      let val := Z.lor (Z.shiftl (byte_val b0) 16)
                       (Z.shiftl (byte_val b1) 8) in
      String (sextet val 18) (String (sextet val 12)
        (String (sextet val 6) (String padChar EmptyString)))
  | String b0 EmptyString =>
      let val := Z.shiftl (byte_val b0) 16 in
      String (sextet val 18) (String (sextet val 12)
        (String padChar (String padChar EmptyString)))
  | EmptyString => EmptyString
  end.

(** *** Decoding *)

Definition is_newline (c : ascii) : bool :=
  Ascii.eqb c LF || Ascii.eqb c CR.

(** [for si < len(src) && (src[si] == '\n' || src[si] == '\r') { si++ }] *)
Fixpoint skip_newlines (src : string) : string :=
  match src with
  | String c src' => if is_newline c then skip_newlines src' else src
  | EmptyString => src
  end.

(** Convert 4x 6bit source bytes into 3 bytes. *)
Definition assemble (d0 d1 d2 d3 : Z) : Z :=
  Z.lor (Z.lor (Z.lor (Z.shiftl d0 18) (Z.shiftl d1 12)) (Z.shiftl d2 6)) d3.

Definition quantum (dlen : nat) (d0 d1 d2 d3 : Z) : string :=
  let val := assemble d0 d1 d2 d3 in
  let b0 := byte (Z.shiftr val 16) in
  let b1 := byte (Z.shiftr val 8) in
  let b2 := byte (Z.shiftr val 0) in
  match dlen with
  | 4%nat => String b0 (String b1 (String b2 EmptyString))
  | 3%nat => String b0 (String b1 EmptyString)
  | 2%nat => String b0 EmptyString
  | _ => EmptyString
  end.

(** The loop of [Decode] over [decodeQuantum].  [dbuf] holds the
    6-bit values read so far in the current quantum.  [None] stands
    for a non-nil [CorruptInputError]: the caller looks at nothing
    else then.  Line feeds and carriage returns are skipped; the
    padding is mandatory and ends the input. *)
Fixpoint decode (src : string) (dbuf : list Z) : option string :=
  match src with
  | EmptyString =>
      match dbuf with
      | [] => Some EmptyString
      | _ => None
      end
  | String c rest =>
      let out := decodeMap c in
      if negb (out =? 255)%Z then
        match dbuf with
        | [d0; d1; d2] =>
            option_map (String.append (quantum 4 d0 d1 d2 out))
                       (decode rest [])
        | _ => decode rest (dbuf ++ [out])
        end
      else if is_newline c then decode rest dbuf
      else if negb (Ascii.eqb c padChar) then None
      else
        match dbuf with
        | [d0; d1] =>
            match skip_newlines rest with
            | EmptyString => None
            | String c2 rest2 =>
                if negb (Ascii.eqb c2 padChar) then None
                else match skip_newlines rest2 with
                     | EmptyString => Some (quantum 2 d0 d1 0 0)
                     | String _ _ => None
                     end
            end
        | [d0; d1; d2] =>
            match skip_newlines rest with
            | EmptyString => Some (quantum 3 d0 d1 d2 0)
            | String _ _ => None
            end
        | _ => None
        end
  end.

(** [enc.DecodeString(s)]; [None] when [err != nil]. *)
Definition DecodeString (s : string) : option string := decode s [].

End base64.

(** ** package httpauth *)

Module httpauth.

Import httptest.

(** [fmt.Sprintf(`%s realm="%s"`, method, realm)]: both verbs are [%s]
    with string arguments, which are copied as they are. *)
Definition Sprintf_realm (method realm : string) : string :=
  String.append method
    (String.append " realm=" (String dquote (String.append realm (String dquote EmptyString)))).

Section Handler.

(** The state of the integrator's program: whatever the verification
    function and the wrapped handler read and write. *)
Context {Env : Type}.

(** An [http.Handler]: its [ServeHTTP(w, r)] writes to [w] and may
    change the program's state. *)
Definition Handler : Type :=
  ResponseRecorder -> http.Request -> Env -> ResponseRecorder * Env.

(** [func(string, string) bool] *)
Definition AuthFunc : Type := string -> string -> Env -> bool * Env.

Record handler := {
  method : string;
  realm : string;
  success : Handler;
  auth : AuthFunc
}.

Definition Basic (realm : string) (onSuccess : Handler) (authFunc : AuthFunc)
  : handler :=
  {| method := "Basic";
     realm := realm;
     success := onSuccess;
     auth := authFunc |}.

(** What the handler does to the outside, in order: its calls on the
    response writer, of the verification function and of the wrapped
    handler (with the writer and the request it passes). *)
Inductive Call :=
| Call_Header_Add (key value : string)
| Call_WriteHeader (code : Z)
| Call_auth (user pass : string)
| Call_success (w : ResponseRecorder) (r : http.Request).

(** The objects a call of [ServeHTTP] has in reach: its receiver
    [h], the writer [w], the program's state, and the calls made so
    far. *)
Record World := {
  this : handler;
  writer : ResponseRecorder;
  env : Env;
  calls : list Call
}.

(** A computation returns normally with a value and a new world, or
    panics. *)
Inductive Outcome (A : Type) :=
| Done (a : A) (st : World)
| Panic.
Arguments Done {A} a st.
Arguments Panic {A}.

Definition M (A : Type) : Type := World -> Outcome A.

Definition ret {A} (a : A) : M A := fun st => Done a st.

Definition bind {A B} (m : M A) (k : A -> M B) : M B :=
  fun st => match m st with
            | Done a st' => k a st'
            | Panic => Panic
            end.

Definition panic {A} : M A := fun _ => Panic.

Notation "x <- m ;; k" := (bind m (fun x => k))
  (at level 100, m at next level, k at level 200, right associativity).
Notation "m ;; k" := (bind m (fun _ => k))
  (at level 100, k at level 200, right associativity).

Definition get_this : M handler := fun st => Done (this st) st.

Definition record (c : Call) (st : World) : list Call := calls st ++ [c].

(** [w.Header().Add(key, value)] *)
Definition Header_Add (key value : string) : M unit :=
  fun st =>
    Done tt {| this := this st;
               writer := httptest.Header_Add key value (writer st);
               env := env st;
               calls := record (Call_Header_Add key value) st |}.

(** [w.WriteHeader(code)] *)
Definition WriteHeader (code : Z) : M unit :=
  fun st =>
    Done tt {| this := this st;
               writer := httptest.WriteHeader code (writer st);
               env := env st;
               calls := record (Call_WriteHeader code) st |}.

(** [h.auth(user, pass)] *)
Definition call_auth (user pass : string) : M bool :=
  fun st =>
    let (ok, e) := auth (this st) user pass (env st) in
    Done ok {| this := this st;
               writer := writer st;
               env := e;
               calls := record (Call_auth user pass) st |}.

(** [h.success.ServeHTTP(w, r)] *)
Definition call_success (r : http.Request) : M unit :=
  fun st =>
    let (w, e) := success (this st) (writer st) r (env st) in
    Done tt {| this := this st;
               writer := w;
               env := e;
               calls := record (Call_success (writer st) r) st |}.

(** [parts[i]]: an index out of range panics. *)
Definition index (parts : list string) (i : nat) : M string :=
  match nth_error parts i with
  | Some s => ret s
  | None => panic
  end.

(** [func (h *handler) fail(w http.ResponseWriter)] *)
Definition fail : M unit :=
  h <- get_this ;;
  Header_Add "WWW-Authenticate" (Sprintf_realm (method h) (realm h)) ;;
  WriteHeader http.StatusUnauthorized.

(** [func (h *handler) ServeHTTP(w http.ResponseWriter, r *http.Request)] *)
Definition ServeHTTP (r : http.Request) : M unit :=
  h <- get_this ;;
  let a := http.Header_Get (http.Header_ r) "Authorization" in
  if String.eqb a "" then fail
  else
    let parts := strings.Split a space in
    if negb (Nat.eqb (length parts) 2) then fail
    else
      p0 <- index parts 0 ;;
      if negb (String.eqb p0 (method h)) then fail
      else
        p1 <- index parts 1 ;;
        match base64.DecodeString p1 with
        | None => fail
        | Some creds =>
            let parts := strings.Split creds colon in
            if negb (Nat.eqb (length parts) 2) then fail
            else
              user <- index parts 0 ;;
              pass <- index parts 1 ;;
              ok <- call_auth user pass ;;
              if negb ok then fail
              else call_success r
        end.

(** A call [handler.ServeHTTP(w, req)] from outside. *)
Definition enter (h : handler) (w : ResponseRecorder) (e : Env) : World :=
  {| this := h; writer := w; env := e; calls := [] |}.

(** *** The vocabulary of the specification *)

(** The value of the request's authentication header, as [ServeHTTP]
    reads it. *)
Definition authorization (r : http.Request) : string :=
  http.Header_Get (http.Header_ r) "Authorization".

(** The value of the challenge header. *)
Definition challenge (h : handler) : string :=
  Sprintf_realm (method h) (realm h).

(** The world a call of [fail] leaves behind. *)
Definition failed (st : World) : World :=
  {| this := this st;
     writer := httptest.WriteHeader http.StatusUnauthorized
                 (httptest.Header_Add "WWW-Authenticate" (challenge (this st))
                    (writer st));
     env := env st;
     calls := calls st ++ [Call_Header_Add "WWW-Authenticate" (challenge (this st));
                           Call_WriteHeader http.StatusUnauthorized] |}.

(** The answer of the verification function in a world, and the world
    its call leaves behind. *)
Definition answer (user pass : string) (st : World) : bool :=
  fst (auth (this st) user pass (env st)).

Definition asked (user pass : string) (st : World) : World :=
  {| this := this st;
     writer := writer st;
     env := snd (auth (this st) user pass (env st));
     calls := calls st ++ [Call_auth user pass] |}.

(** The world a call of the wrapped handler leaves behind. *)
Definition forwarded (r : http.Request) (st : World) : World :=
  {| this := this st;
     writer := fst (success (this st) (writer st) r (env st));
     env := snd (success (this st) (writer st) r (env st));
     calls := calls st ++ [Call_success (writer st) r] |}.

(** The request carries the credentials [(user, pass)]: steps 1 to 5
    of the algorithm pass. *)
Definition Credentials (h : handler) (r : http.Request) (user pass : string)
  : Prop :=
  exists token creds,
    strings.Split (authorization r) space = [method h; token]
    /\ base64.DecodeString token = Some creds
    /\ strings.Split creds colon = [user; pass].

(** Why a request is rejected, by the step that rejects it. *)
Inductive Cause :=
| MissingHeader
| MalformedHeader
| WrongScheme
| BadEncoding
| MalformedCredentials
| RejectedCredentials.

Definition Cause_eq_dec (c1 c2 : Cause) : {c1 = c2} + {c1 <> c2}.
Proof. decide equality. Defined.

Inductive Rejects (h : handler) (r : http.Request) (e : Env) : Cause -> Prop :=
| Rejects_missing :
    authorization r = "" ->
    Rejects h r e MissingHeader
| Rejects_malformed :
    length (strings.Split (authorization r) space) <> 2 ->
    Rejects h r e MalformedHeader
| Rejects_scheme scheme token :
    strings.Split (authorization r) space = [scheme; token] ->
    scheme <> method h ->
    Rejects h r e WrongScheme
| Rejects_encoding token :
    strings.Split (authorization r) space = [method h; token] ->
    base64.DecodeString token = None ->
    Rejects h r e BadEncoding
| Rejects_credentials token creds :
    strings.Split (authorization r) space = [method h; token] ->
    base64.DecodeString token = Some creds ->
    length (strings.Split creds colon) <> 2 ->
    Rejects h r e MalformedCredentials
| Rejects_auth user pass :
    Credentials h r user pass ->
    fst (auth h user pass e) = false ->
    Rejects h r e RejectedCredentials.

(** The calls of a trace on the response writer, of the verification
    function, and of the wrapped handler. *)
Definition is_write (c : Call) : bool :=
  match c with
  | Call_Header_Add _ _ | Call_WriteHeader _ => true
  | _ => false
  end.

Definition is_auth (c : Call) : bool :=
  match c with
  | Call_auth _ _ => true
  | _ => false
  end.

Definition is_success (c : Call) : bool :=
  match c with
  | Call_success _ _ => true
  | _ => false
  end.

Definition writes (cs : list Call) : list Call := List.filter is_write cs.
Definition asks (cs : list Call) : list Call := List.filter is_auth cs.
Definition forwards (cs : list Call) : list Call := List.filter is_success cs.

(** The round trip of the specification, for one user name and one
    password: a request whose header is [Basic] followed by the
    encoding of [username:password] makes the handler call the
    verification function with exactly these two strings. *)
Definition RoundTrip (username password : string) : Prop :=
  forall (realm : string) (onSuccess : Handler) (authFunc : AuthFunc)
         (w : ResponseRecorder) (e : Env) (r : http.Request),
    authorization r
    = String.append "Basic "
        (base64.EncodeToString
           (String.append username (String colon password))) ->
    exists st',
      ServeHTTP r (enter (Basic realm onSuccess authFunc) w e) = Done tt st'
      /\ asks (calls st') = [Call_auth username password].

(** The same handler with another verification function. *)
Definition with_auth (h : handler) (f : AuthFunc) : handler :=
  {| method := method h; realm := realm h; success := success h; auth := f |}.

End Handler.

Arguments Handler : clear implicits.
Arguments AuthFunc : clear implicits.
Arguments handler : clear implicits.
Arguments Call : clear implicits.
Arguments World : clear implicits.
Arguments Outcome : clear implicits.
Arguments M : clear implicits.
Arguments Done {Env A} a st.
Arguments Panic {Env A}.

End httpauth.

(** ** The handler of [TestBasic] *)

Module TestBasic.

Import httptest httpauth.

(** The variables the test's closures capture. *)
Record Vars := { user : string; pass : string; fail : bool }.

Definition onSuccess : Handler Vars :=
  fun w _ e => (Write "test-good" w, e).

Definition authFunc : AuthFunc Vars :=
  fun u p e => (negb (fail e), {| user := u; pass := p; fail := fail e |}).

Definition handler : httpauth.handler Vars :=
  Basic "test-realm" onSuccess authFunc.

(** [http.NewRequest("GET", "http://example.com/foo", nil)] followed by
    [req.Header.Add("Authorization", header)]. *)
Definition request (header : string) : http.Request :=
  {| http.Method := "GET";
     http.URL := "http://example.com/foo";
     http.Header_ := http.Header_Add ∅ "Authorization" header;
     http.Body_ := "" |}.

(** One round of the test's loop: the observed code, user, pass,
    challenge header and body. *)
Definition round (header : string) (e : Vars)
  : option (Z * string * string * string * string) :=
  match ServeHTTP (request header) (enter handler NewRecorder e) with
  | Done _ st =>
      Some (Code (writer st), user (env st), pass (env st),
            http.Header_Get (HeaderMap (writer st)) "WWW-Authenticate",
            Body (writer st))
  | Panic => None
  end.

Definition vars0 (f : bool) : Vars := {| user := ""; pass := ""; fail := f |}.

Definition expect : string := Sprintf_realm "Basic" "test-realm".

End TestBasic.

(** ** The rest of the package: its handlers as values, its example
    and the loop of its test *)

(** What [base64.StdEncoding] makes of the bytes of a token: the line
    feeds and carriage returns it skips, and the bytes it knows (the
    alphabet, the padding and the two it skips). *)
Fixpoint strip_newlines (s : string) : string :=
  match s with
  | EmptyString => EmptyString
  | String c s' =>
      if base64.is_newline c then strip_newlines s'
      else String c (strip_newlines s')
  end.

Definition symbols (s : string) : nat := String.length (strip_newlines s).

Definition known_byte (c : ascii) : bool :=
  negb (base64.decodeMap c =? 255)%Z || base64.is_newline c
  || Ascii.eqb c padChar.

Fixpoint all_known (s : string) : bool :=
  match s with
  | EmptyString => true
  | String c s' => known_byte c && all_known s'
  end.

(** The value [Basic] returns is an [http.Handler]: its [ServeHTTP]
    called on a writer and a request.  [ServeHTTP] never panics (see
    [serve_Done]), which is why the last case gives nothing to model. *)
Definition serve {Env : Type} (h : httpauth.handler Env) : httpauth.Handler Env :=
  fun w r e =>
    match httpauth.ServeHTTP r (httpauth.enter h w e) with
    | httpauth.Done _ st => (httpauth.writer st, httpauth.env st)
    | httpauth.Panic => (w, e)
    end.

(** [func ExampleBasic()]: the handler it registers for [/private/],
    over the file server it wraps. *)
Module ExampleBasic.

Import httpauth.

Definition authFunc {Env : Type} : AuthFunc Env :=
  fun user pass e =>
    (if String.eqb user "test" && String.eqb pass "nothing" then true
     else false, e).


End ExampleBasic.

(** [func TestBasic(t *testing.T)]: its table and its loop. *)
Module TestLoop.

Import httptest httpauth.

Record row := {
  header : string;
  user : string;
  pass : string;
  code : Z;
  fail : bool
}.

Definition tests : list row :=
  [ {| header := ""; user := ""; pass := "";
       code := http.StatusUnauthorized; fail := true |};
    {| header := "Basic askd asdf"; user := ""; pass := "";
       code := http.StatusUnauthorized; fail := true |};
    {| header := "Digest askd="; user := ""; pass := "";
       code := http.StatusUnauthorized; fail := true |};
    {| header := "Basic #%@"; user := ""; pass := "";
       code := http.StatusUnauthorized; fail := true |};
    {| header := "Basic dGVzdDpub3RoaW5nLzEyMzphYnM="; user := ""; pass := "";
       code := http.StatusUnauthorized; fail := true |};
    {| header := "Basic dGVzdDpub3RoaW5nLzEyMw=="; user := "test";
       pass := "nothing/123"; code := http.StatusOK; fail := false |};
    {| header := "Basic dGVzdDpub3RoaW5nLzEyMw=="; user := "test";
       pass := "nothing/123"; code := http.StatusUnauthorized; fail := true |} ].

(** What the test reports: [t.Errorf] goes on, [t.Fatalf] stops. *)
Inductive Report :=
| Errorf (k : nat) (what : string)
| Fatalf (k : nat) (what : string).

Definition unless (ok : bool) (k : nat) (what : string) : list Report :=
  if ok then [] else [Errorf k what].

(** The loop from row [k] on; [vars] are the variables [user], [pass]
    and [fail] the closures share, which live across the rows. *)
Fixpoint loop (k : nat) (rows : list row) (vars : TestBasic.Vars)
  : list Report :=
  match rows with
  | [] => []
  | test :: rows' =>
      let vars1 := {| TestBasic.user := TestBasic.user vars;
                      TestBasic.pass := TestBasic.pass vars;
                      TestBasic.fail := fail test |} in
      match ServeHTTP (TestBasic.request (header test))
              (enter TestBasic.handler NewRecorder vars1) with
      | Panic => [Fatalf k "panic"]
      | Done _ st =>
          let w := writer st in
          if negb (Code w =? code test)%Z then [Fatalf k "Response Code"]
          else
            unless (String.eqb (TestBasic.user (env st)) (user test)) k "User"
            ++ unless (String.eqb (TestBasic.pass (env st)) (pass test)) k "Pass"
            ++ (if fail test
                then unless (String.eqb
                               (http.Header_Get (HeaderMap w) "WWW-Authenticate")
                               (String.append "Basic realm="
                                  (String dquote
                                     (String.append "test-realm"
                                        (String dquote EmptyString)))))
                            k "WWW-Authenticate"
                else unless (String.eqb (Body w) "test-good") k "response body")
            ++ loop (S k) rows' (env st)
      end
  end.

Definition TestBasic : list Report :=
  loop 0 tests {| TestBasic.user := ""; TestBasic.pass := ""; TestBasic.fail := false |}.

End TestLoop.

(** * Properties *)

Import httptest httpauth.

(** ** The model on the inputs of the package's test *)

Example canonical_authorization :
  textproto.CanonicalMIMEHeaderKey "Authorization" = "Authorization".
Proof. reflexivity. Qed.

Example canonical_www_authenticate :
  textproto.CanonicalMIMEHeaderKey "WWW-Authenticate" = "Www-Authenticate".
Proof. reflexivity. Qed.

Example split_test1 : strings.Split "Basic askd asdf" space = ["Basic"; "askd"; "asdf"].
Proof. reflexivity. Qed.

Example split_empty : strings.Split "" space = [""].
Proof. reflexivity. Qed.

Example decode_test_ok :
  base64.DecodeString "dGVzdDpub3RoaW5nLzEyMw==" = Some "test:nothing/123".
Proof. reflexivity. Qed.

Example decode_test_three :
  base64.DecodeString "dGVzdDpub3RoaW5nLzEyMzphYnM=" = Some "test:nothing/123:abs".
Proof. reflexivity. Qed.

Example decode_test_bad : base64.DecodeString "#%@" = None.
Proof. reflexivity. Qed.

Example decode_test_short : base64.DecodeString "askd=" = None.
Proof. reflexivity. Qed.

Example encode_test :
  base64.EncodeToString "test:nothing/123" = "dGVzdDpub3RoaW5nLzEyMw==".
Proof. reflexivity. Qed.

Example no_header : TestBasic.round "" (TestBasic.vars0 true) = Some (401%Z, "", "", TestBasic.expect, "").
Proof. reflexivity. Qed.

Example header_size : TestBasic.round "Basic askd asdf" (TestBasic.vars0 true) = Some (401%Z, "", "", TestBasic.expect, "").
Proof. reflexivity. Qed.

Example wrong_method : TestBasic.round "Digest askd=" (TestBasic.vars0 true) = Some (401%Z, "", "", TestBasic.expect, "").
Proof. reflexivity. Qed.

Example bad_base64 : TestBasic.round "Basic #%@" (TestBasic.vars0 true) = Some (401%Z, "", "", TestBasic.expect, "").
Proof. reflexivity. Qed.

Example three_fields :
  TestBasic.round "Basic dGVzdDpub3RoaW5nLzEyMzphYnM=" (TestBasic.vars0 true) = Some (401%Z, "", "", TestBasic.expect, "").
Proof. reflexivity. Qed.

Example normal :
  TestBasic.round "Basic dGVzdDpub3RoaW5nLzEyMw==" (TestBasic.vars0 false)
  = Some (200%Z, "test", "nothing/123", "", "test-good").
Proof. reflexivity. Qed.

Example failed_auth :
  TestBasic.round "Basic dGVzdDpub3RoaW5nLzEyMw==" (TestBasic.vars0 true)
  = Some (401%Z, "test", "nothing/123", TestBasic.expect, "").
Proof. reflexivity. Qed.

(** ** [strings.Split] and [strings.Count] *)

Section SplitFacts.

Variable sep : ascii.

Lemma Split_cons_sep (s : string) :
  strings.Split (String sep s) sep = EmptyString :: strings.Split s sep.
Proof. simpl. now rewrite Ascii.eqb_refl. Qed.

Lemma Split_not_nil (s : string) : strings.Split s sep <> [].
Proof.
  induction s as [|c s IH]; simpl; [discriminate|].
  destruct (Ascii.eqb c sep); [discriminate|].
  destruct (strings.Split s sep); discriminate.
Qed.

Lemma Split_cons_other (c : ascii) (s : string) :
  Ascii.eqb c sep = false ->
  exists piece rest,
    strings.Split s sep = piece :: rest
    /\ strings.Split (String c s) sep = String c piece :: rest.
Proof.
  intros Hc. simpl. rewrite Hc.
  destruct (strings.Split s sep) as [|piece rest] eqn:E.
  - now apply Split_not_nil in E.
  - now exists piece, rest.
Qed.

(** The number of pieces is the number of separators plus one. *)
Lemma Split_length (s : string) :
  length (strings.Split s sep) = S (strings.Count s sep).
Proof.
  induction s as [|c s IH]; [reflexivity|].
  destruct (Ascii.eqb c sep) eqn:Hc.
  - apply Ascii.eqb_eq in Hc. subst c. rewrite Split_cons_sep.
    simpl. rewrite Ascii.eqb_refl, IH. reflexivity.
  - destruct (Split_cons_other c s Hc) as (piece & rest & E1 & E2).
    rewrite E2. rewrite E1 in IH. simpl in IH |- *. rewrite Hc. exact IH.
Qed.

(** Not exactly two pieces: no separator, or more than one. *)
Lemma Split_length_two (s : string) :
  length (strings.Split s sep) <> 2 <-> strings.Count s sep <> 1.
Proof. rewrite Split_length. lia. Qed.

Lemma Split_no_sep (s : string) :
  strings.Count s sep = 0 -> strings.Split s sep = [s].
Proof.
  induction s as [|c s IH]; [reflexivity|].
  simpl. destruct (Ascii.eqb c sep); [discriminate|].
  intros H. rewrite IH by exact H. reflexivity.
Qed.

Lemma Split_append (u p : string) :
  strings.Count u sep = 0 ->
  strings.Split (String.append u (String sep p)) sep = u :: strings.Split p sep.
Proof.
  induction u as [|c u IH]; intros H.
  - apply Split_cons_sep.
  - simpl in H |- *. destruct (Ascii.eqb c sep); [discriminate|].
    rewrite IH by exact H. reflexivity.
Qed.

(** Two pieces: one separator, between them. *)
Lemma Split_two (u p : string) :
  strings.Count u sep = 0 -> strings.Count p sep = 0 ->
  strings.Split (String.append u (String sep p)) sep = [u; p].
Proof.
  intros Hu Hp. rewrite Split_append by exact Hu.
  now rewrite Split_no_sep.
Qed.

Lemma Split_two_inv (s u p : string) :
  strings.Split s sep = [u; p] ->
  s = String.append u (String sep p)
  /\ strings.Count u sep = 0 /\ strings.Count p sep = 0.
Proof.
  revert u. induction s as [|c s IH]; intros u H; [discriminate|].
  destruct (Ascii.eqb c sep) eqn:Hc.
  - apply Ascii.eqb_eq in Hc. subst c. rewrite Split_cons_sep in H.
    injection H as <- H.
    assert (Hl := Split_length s). rewrite H in Hl. simpl in Hl.
    assert (Hp : strings.Count s sep = 0) by lia.
    rewrite (Split_no_sep s Hp) in H. injection H as ->.
    repeat split; try reflexivity. exact Hp.
  - destruct (Split_cons_other c s Hc) as (piece & rest & E1 & E2).
    rewrite E2 in H. injection H as <- ->.
    destruct (IH piece E1) as (-> & Hu & Hp).
    repeat split; simpl; rewrite ?Hc; assumption || reflexivity.
Qed.

End SplitFacts.

(** ** [base64.StdEncoding]: decoding undoes encoding *)

Section Base64Facts.

Import textproto base64.
Local Open Scope Z_scope.

Lemma byte_val_range (c : ascii) : 0 <= byte_val c < 256.
Proof.
  unfold byte_val. pose proof (N_ascii_bounded c). lia.
Qed.

Lemma byte_byte_val (c : ascii) (v : Z) :
  Z.land v 255 = byte_val c -> byte v = c.
Proof.
  intros H. unfold byte. rewrite H. unfold byte_val.
  rewrite N2Z.id. apply ascii_N_embedding.
Qed.

(** Turns the powers of two of the goal into numerals and solves what
    is left, divisions and remainders included, by linear arithmetic. *)
Ltac pow2_lia :=
  repeat match goal with
         | |- context [2 ^ ?k] =>
             let v := eval vm_compute in (2 ^ k) in change (2 ^ k) with v
         end;
  try (Z.div_mod_to_equations; lia).

(** A bitwise or of two numbers with no bit in common is their sum. *)
Lemma lor_add_low (a b n : Z) :
  0 <= n -> a mod 2 ^ n = 0 -> 0 <= b < 2 ^ n -> Z.lor a b = a + b.
Proof.
  intros Hn Ha Hb.
  rewrite <- Z.add_lor_land.
  assert (Z.land a b = 0) as ->; [|lia].
  apply Z.bits_inj'. intros i Hi.
  rewrite Z.land_spec, Z.bits_0.
  destruct (Z.lt_ge_cases i n) as [Hlt|Hge].
  - rewrite <- (Z.mod_pow2_bits_low a n i) by lia.
    rewrite Ha, Z.bits_0. reflexivity.
  - rewrite <- (Z.mod_small b (2 ^ n)) by lia.
    rewrite Z.mod_pow2_bits_high by lia.
    apply Bool.andb_false_r.
Qed.

Lemma assemble_add (d0 d1 d2 d3 : Z) :
  0 <= d0 < 64 -> 0 <= d1 < 64 -> 0 <= d2 < 64 -> 0 <= d3 < 64 ->
  assemble d0 d1 d2 d3 = 262144 * d0 + 4096 * d1 + 64 * d2 + d3.
Proof.
  intros H0 H1 H2 H3. unfold assemble.
  rewrite !Z.shiftl_mul_pow2 by lia.
  rewrite (lor_add_low (d0 * 2 ^ 18) (d1 * 2 ^ 12) 18); [ | lia | pow2_lia ..].
  rewrite (lor_add_low _ (d2 * 2 ^ 6) 12); [ | lia | pow2_lia ..].
  rewrite (lor_add_low _ d3 6); [ | lia | pow2_lia ..].
  pow2_lia.
Qed.

Lemma six_range (val k : Z) : 0 <= six val k < 64.
Proof.
  unfold six. change 63 with (Z.ones 6). rewrite Z.land_ones by lia.
  apply Z.mod_pos_bound. reflexivity.
Qed.

Lemma six_div (val k : Z) : 0 <= k -> six val k = (val / 2 ^ k) mod 64.
Proof.
  intros Hk. unfold six. change 63 with (Z.ones 6).
  now rewrite Z.land_ones, Z.shiftr_div_pow2 by lia.
Qed.

(** The four 6-bit values of a 24-bit number put it together again. *)
Lemma assemble_six (val : Z) :
  0 <= val < 16777216 ->
  assemble (six val 18) (six val 12) (six val 6) (six val 0) = val.
Proof.
  intros H.
  rewrite assemble_add by apply six_range.
  rewrite !six_div by lia. pow2_lia.
Qed.

Lemma pack3 (b0 b1 b2 : Z) :
  0 <= b0 < 256 -> 0 <= b1 < 256 -> 0 <= b2 < 256 ->
  Z.lor (Z.lor (Z.shiftl b0 16) (Z.shiftl b1 8)) b2
  = 65536 * b0 + 256 * b1 + b2.
Proof.
  intros H0 H1 H2.
  rewrite !Z.shiftl_mul_pow2 by lia.
  rewrite (lor_add_low (b0 * 2 ^ 16) (b1 * 2 ^ 8) 16); [ | lia | pow2_lia ..].
  rewrite (lor_add_low _ b2 8); [ | lia | pow2_lia ..].
  pow2_lia.
Qed.

Lemma unpack3 (b0 b1 b2 : Z) :
  0 <= b0 < 256 -> 0 <= b1 < 256 -> 0 <= b2 < 256 ->
  Z.land (Z.shiftr (65536 * b0 + 256 * b1 + b2) 16) 255 = b0
  /\ Z.land (Z.shiftr (65536 * b0 + 256 * b1 + b2) 8) 255 = b1
  /\ Z.land (Z.shiftr (65536 * b0 + 256 * b1 + b2) 0) 255 = b2.
Proof.
  intros H0 H1 H2.
  change 255 with (Z.ones 8).
  rewrite !Z.land_ones, !Z.shiftr_div_pow2 by lia.
  repeat split; pow2_lia.
Qed.

(** [decodeMap] inverts the alphabet, and no 6-bit value is [0xFF]. *)
Lemma decodeMap_encode (i : Z) :
  0 <= i < 64 -> decodeMap (encode i) = i.
Proof.
  intros H.
  assert (Hall : forallb (fun n => decodeMap (encode (Z.of_nat n)) =? Z.of_nat n)
                         (seq 0 64) = true) by (vm_compute; reflexivity).
  rewrite forallb_forall in Hall.
  specialize (Hall (Z.to_nat i)).
  rewrite Z2Nat.id in Hall by lia.
  apply Z.eqb_eq, Hall, in_seq. lia.
Qed.

Lemma decodeMap_sextet (val k : Z) :
  decodeMap (sextet val k) = six val k /\ (six val k =? 255) = false.
Proof.
  pose proof (six_range val k) as H. split.
  - now apply decodeMap_encode.
  - apply Z.eqb_neq. lia.
Qed.

(** One step of the decoder on a character of the alphabet. *)
Lemma decode_symbol (c : ascii) (rest : string) (dbuf : list Z) (d : Z) :
  decodeMap c = d -> (d =? 255) = false ->
  decode (String c rest) dbuf
  = match dbuf with
    | [d0; d1; d2] =>
        option_map (String.append (quantum 4 d0 d1 d2 d)) (decode rest [])
    | _ => decode rest (dbuf ++ [d])%list
    end.
Proof.
  intros Hd Hne.
  change (decode (String c rest) dbuf) with
    (let out := decodeMap c in
     if negb (out =? 255) then
       match dbuf with
       | [d0; d1; d2] =>
           option_map (String.append (quantum 4 d0 d1 d2 out)) (decode rest [])
       | _ => decode rest (dbuf ++ [out])%list
       end
     else if is_newline c then decode rest dbuf
     else if negb (Ascii.eqb c padChar) then None
     else
       match dbuf with
       | [d0; d1] =>
           match skip_newlines rest with
           | EmptyString => None
           | String c2 rest2 =>
               if negb (Ascii.eqb c2 padChar) then None
               else match skip_newlines rest2 with
                    | EmptyString => Some (quantum 2 d0 d1 0 0)
                    | String _ _ => None
                    end
           end
       | [d0; d1; d2] =>
           match skip_newlines rest with
           | EmptyString => Some (quantum 3 d0 d1 d2 0)
           | String _ _ => None
           end
       | _ => None
       end).
  cbv zeta. rewrite Hd, Hne. reflexivity.
Qed.

Lemma decode_sextet (val k : Z) (rest : string) (dbuf : list Z) :
  decode (String (sextet val k) rest) dbuf
  = match dbuf with
    | [d0; d1; d2] =>
        option_map (String.append (quantum 4 d0 d1 d2 (six val k)))
                   (decode rest [])
    | _ => decode rest (dbuf ++ [six val k])%list
    end.
Proof.
  destruct (decodeMap_sextet val k) as [H1 H2].
  now apply decode_symbol.
Qed.

(** The padding after three and after two characters of a quantum. *)
Lemma decode_pad1 (d0 d1 d2 : Z) :
  decode (String padChar EmptyString) [d0; d1; d2] = Some (quantum 3 d0 d1 d2 0).
Proof. reflexivity. Qed.

Lemma decode_pad2 (d0 d1 : Z) :
  decode (String padChar (String padChar EmptyString)) [d0; d1]
  = Some (quantum 2 d0 d1 0 0).
Proof. reflexivity. Qed.

(** The bytes of a quantum that was cut out of a 24-bit number. *)
Lemma quantum_six (dlen : nat) (b0 b1 b2 : ascii) :
  let val := 65536 * byte_val b0 + 256 * byte_val b1 + byte_val b2 in
  quantum dlen (six val 18) (six val 12) (six val 6) (six val 0)
  = match dlen with
    | 4%nat => String b0 (String b1 (String b2 EmptyString))
    | 3%nat => String b0 (String b1 EmptyString)
    | 2%nat => String b0 EmptyString
    | _ => EmptyString
    end.
Proof.
  intros val.
  pose proof (byte_val_range b0) as H0.
  pose proof (byte_val_range b1) as H1.
  pose proof (byte_val_range b2) as H2.
  unfold quantum. rewrite assemble_six by (unfold val; lia).
  destruct (unpack3 _ _ _ H0 H1 H2) as (E0 & E1 & E2).
  fold val in E0, E1, E2.
  rewrite (byte_byte_val b0 _ E0), (byte_byte_val b1 _ E1),
    (byte_byte_val b2 _ E2).
  reflexivity.
Qed.

Lemma six_pad (b0 b1 : ascii) :
  six (65536 * byte_val b0 + 256 * byte_val b1 + byte_val zero) 0 = 0
  /\ six (65536 * byte_val b0 + 256 * byte_val zero + byte_val zero) 6 = 0.
Proof.
  pose proof (byte_val_range b0) as H0.
  pose proof (byte_val_range b1) as H1.
  change (byte_val zero) with 0.
  rewrite !six_div by lia.
  split; pow2_lia.
Qed.

Lemma decode_EncodeToString (n : nat) :
  forall s : string,
    (String.length s <= n)%nat -> decode (EncodeToString s) [] = Some s.
Proof.
  induction n as [|n IH]; intros s Hs.
  - destruct s; [reflexivity | simpl in Hs; lia].
  - destruct s as [|b0 [|b1 [|b2 rest]]]; [reflexivity | | | ].
    + cbn [EncodeToString].
      assert (Z.shiftl (byte_val b0) 16
              = 65536 * byte_val b0 + 256 * byte_val zero + byte_val zero) as ->.
      { rewrite Z.shiftl_mul_pow2 by lia. change (byte_val zero) with 0. lia. }
      rewrite !decode_sextet. cbn [app]. rewrite decode_pad2.
      destruct (six_pad b0 zero) as [E0 E6].
      rewrite <- E6 at 1. rewrite <- E0.
      rewrite (quantum_six 2). reflexivity.
    + cbn [EncodeToString].
      assert (Z.lor (Z.shiftl (byte_val b0) 16) (Z.shiftl (byte_val b1) 8)
              = 65536 * byte_val b0 + 256 * byte_val b1 + byte_val zero) as ->.
      { rewrite <- (Z.lor_0_r (Z.lor _ _)).
        change 0 with (byte_val zero) at 1.
        apply pack3; apply byte_val_range. }
      rewrite !decode_sextet. cbn [app]. rewrite decode_pad1.
      destruct (six_pad b0 b1) as [E0 _].
      rewrite <- E0.
      rewrite (quantum_six 3). reflexivity.
    + cbn [EncodeToString].
      rewrite pack3 by apply byte_val_range.
      rewrite !decode_sextet. cbn [app].
      rewrite IH by (simpl in Hs; lia).
      rewrite (quantum_six 4). reflexivity.
Qed.

Lemma sextet_not_space (val k : Z) : Ascii.eqb (sextet val k) space = false.
Proof.
  assert (Hall : forallb (fun n => negb (Ascii.eqb (encode (Z.of_nat n)) space))
                         (seq 0 64) = true) by (vm_compute; reflexivity).
  rewrite forallb_forall in Hall.
  pose proof (six_range val k) as H.
  specialize (Hall (Z.to_nat (six val k))).
  rewrite Z2Nat.id in Hall by lia.
  apply negb_true_iff, Hall, in_seq. lia.
Qed.

(** The encoding holds no space. *)
Lemma Count_EncodeToString (n : nat) :
  forall s : string,
    (String.length s <= n)%nat ->
    strings.Count (EncodeToString s) space = 0%nat.
Proof.
  induction n as [|n IH]; intros s Hs.
  - destruct s; [reflexivity | simpl in Hs; lia].
  - destruct s as [|b0 [|b1 [|b2 rest]]]; [reflexivity | | | ];
      cbn [EncodeToString strings.Count]; rewrite !sextet_not_space.
    + reflexivity.
    + reflexivity.
    + rewrite IH by (simpl in Hs; lia). reflexivity.
Qed.

(** Decoding the encoding of a byte sequence gives it back. *)
Lemma DecodeString_EncodeToString (s : string) :
  DecodeString (EncodeToString s) = Some s.
Proof. exact (decode_EncodeToString (String.length s) s (le_n _)). Qed.

End Base64Facts.

(** ** The runs of [ServeHTTP] *)

Section ServeFacts.

Context {Env : Type}.
Implicit Types (h : handler Env) (st : World Env) (r : http.Request).
Implicit Types (e : Env) (c : Cause).

Lemma fail_run st : fail st = Done tt (failed st).
Proof.
  unfold fail, bind, get_this, Header_Add, WriteHeader, failed, record,
    challenge.
  cbn. now rewrite <- app_assoc.
Qed.

Lemma call_auth_run user pass st :
  call_auth user pass st = Done (answer user pass st) (asked user pass st).
Proof.
  unfold call_auth, answer, asked, record.
  now destruct (auth (this st) user pass (env st)).
Qed.

Lemma call_success_run r st : call_success r st = Done tt (forwarded r st).
Proof.
  unfold call_success, forwarded, record.
  now destruct (success (this st) (writer st) r (env st)).
Qed.

(** Steps 1 and 2 pass on a header of two tokens. *)
Lemma ServeHTTP_tokens st r scheme token :
  strings.Split (authorization r) space = [scheme; token] ->
  ServeHTTP r st
  = if negb (String.eqb scheme (method (this st))) then fail st
    else match base64.DecodeString token with
         | None => fail st
         | Some creds =>
             let parts := strings.Split creds colon in
             if negb (Nat.eqb (length parts) 2) then fail st
             else
               bind (index parts 0) (fun user =>
               bind (index parts 1) (fun pass =>
               bind (call_auth user pass) (fun ok =>
               if negb ok then fail else call_success r))) st
         end.
Proof.
  intros Hsplit. unfold ServeHTTP, authorization in *.
  unfold bind at 1. unfold get_this.
  destruct (http.Header_Get (http.Header_ r) "Authorization") as [|c0 a] eqn:Ha;
    [discriminate|].
  cbn [String.eqb]. rewrite Hsplit. cbn.
  unfold bind at 1. cbn.
  destruct (String.eqb scheme (method (this st))); cbn; [|reflexivity].
  destruct (base64.DecodeString token) as [creds|]; [|reflexivity].
  destruct (negb (Nat.eqb (length (strings.Split creds colon)) 2)); reflexivity.
Qed.

(** Steps 1 to 5 pass on credentials: the verification function decides. *)
Lemma ServeHTTP_credentials st r user pass :
  Credentials (this st) r user pass ->
  ServeHTTP r st
  = Done tt (if answer user pass st
             then forwarded r (asked user pass st)
             else failed (asked user pass st)).
Proof.
  intros (token & creds & Hsplit & Hdec & Hcreds).
  rewrite (ServeHTTP_tokens st r _ _ Hsplit).
  rewrite String.eqb_refl, Hdec. cbn zeta. rewrite Hcreds. cbn.
  unfold bind. rewrite call_auth_run.
  destruct (answer user pass st); cbn [negb].
  - apply call_success_run.
  - apply fail_run.
Qed.

(** Steps 1 to 5 reject without a call of the verification function. *)
Lemma ServeHTTP_rejects_early st r c :
  Rejects (this st) r (env st) c -> c <> RejectedCredentials ->
  ServeHTTP r st = Done tt (failed st).
Proof.
  intros Hrej Hc. rewrite <- fail_run.
  destruct Hrej as [Ha | Hlen | scheme token Hsplit Hne | token Hsplit Hdec
                   | token creds Hsplit Hdec Hlen | user pass _ _].
  - unfold ServeHTTP, bind, get_this. fold (authorization r).
    now rewrite Ha.
  - unfold ServeHTTP, bind, get_this. fold (authorization r).
    destruct (String.eqb (authorization r) ""); [reflexivity|].
    apply Nat.eqb_neq in Hlen. now rewrite Hlen.
  - rewrite (ServeHTTP_tokens st r _ _ Hsplit).
    apply String.eqb_neq in Hne. now rewrite Hne.
  - rewrite (ServeHTTP_tokens st r _ _ Hsplit).
    now rewrite String.eqb_refl, Hdec.
  - rewrite (ServeHTTP_tokens st r _ _ Hsplit).
    rewrite String.eqb_refl, Hdec. cbn.
    apply Nat.eqb_neq in Hlen. now rewrite Hlen.
  - contradiction.
Qed.

Lemma ServeHTTP_rejects_auth st r user pass :
  Credentials (this st) r user pass ->
  answer user pass st = false ->
  ServeHTTP r st = Done tt (failed (asked user pass st)).
Proof.
  intros Hcred Hans. rewrite (ServeHTTP_credentials st r _ _ Hcred).
  now rewrite Hans.
Qed.

(** Every request is rejected for one of the six causes or carries
    credentials the verification function accepts. *)
Lemma classify h r e :
  (exists c, Rejects h r e c)
  \/ (exists user pass,
        Credentials h r user pass /\ fst (auth h user pass e) = true).
Proof.
  destruct (strings.Split (authorization r) space)
    as [|scheme [|token [|extra more]]] eqn:Hsplit.
  1, 2, 4: left; exists MalformedHeader; apply Rejects_malformed;
    rewrite Hsplit; discriminate.
  destruct (String.eqb_spec scheme (method h)) as [->|Hne].
  2: { left. exists WrongScheme. now apply (Rejects_scheme h r e scheme token). }
  destruct (base64.DecodeString token) as [creds|] eqn:Hdec.
  2: { left. exists BadEncoding. now apply (Rejects_encoding h r e token). }
  destruct (strings.Split creds colon) as [|user [|pass [|extra more]]] eqn:Hcreds.
  1, 2, 4: left; exists MalformedCredentials;
    apply (Rejects_credentials h r e token creds); trivial;
    rewrite Hcreds; discriminate.
  assert (Hcred : Credentials h r user pass) by (now exists token, creds).
  destruct (fst (auth h user pass e)) eqn:Hans.
  - right. now exists user, pass.
  - left. exists RejectedCredentials. now apply (Rejects_auth h r e user pass).
Qed.

(** The world a rejection leaves behind, whatever its cause: the one
    of [fail], after the call of the verification function if it was
    reached. *)
Lemma ServeHTTP_rejects st r c :
  Rejects (this st) r (env st) c ->
  exists st0,
    ServeHTTP r st = Done tt (failed st0)
    /\ this st0 = this st /\ writer st0 = writer st
    /\ (c <> RejectedCredentials -> st0 = st)
    /\ (forall user pass,
          Credentials (this st) r user pass -> c = RejectedCredentials ->
          st0 = asked user pass st).
Proof.
  intros Hrej.
  destruct (Cause_eq_dec c RejectedCredentials) as [->|Hc].
  - inversion Hrej as [| | | | |user pass Hcred Hans].
    exists (asked user pass st). split; [|repeat split].
    + now apply ServeHTTP_rejects_auth.
    + intros Hc. contradiction.
    + intros user' pass' Hcred' _.
      destruct Hcred as (t & cr & H1 & H2 & H3).
      destruct Hcred' as (t' & cr' & H1' & H2' & H3').
      congruence.
  - exists st. split; [|repeat split].
    + now apply (ServeHTTP_rejects_early st r c).
    + intros user pass _ Hc'. contradiction.
Qed.

End ServeFacts.

(** ** What the challenge does to the response *)

Section Challenge.

Context {Env : Type}.
Implicit Types (h : handler Env) (st : World Env).

Lemma Code_failed st :
  wroteHeader (writer st) = false ->
  Code (writer (failed st)) = http.StatusUnauthorized.
Proof.
  intros H. unfold failed, httptest.WriteHeader. cbn. now rewrite H.
Qed.

Lemma Body_failed st : Body (writer (failed st)) = Body (writer st).
Proof.
  unfold failed, httptest.WriteHeader. cbn.
  now destruct (wroteHeader (writer st)).
Qed.

Lemma HeaderMap_failed st :
  HeaderMap (writer (failed st))
  = http.Header_Add (HeaderMap (writer st)) "WWW-Authenticate"
      (challenge (this st)).
Proof.
  unfold failed, httptest.WriteHeader. cbn.
  now destruct (wroteHeader (writer st)).
Qed.

Lemma Header_Values_Add (m : http.Header) (key value : string) :
  http.Header_Values (http.Header_Add m key value) key
  = http.Header_Values m key ++ [value].
Proof.
  unfold http.Header_Values, http.Header_Add.
  now rewrite lookup_insert_eq.
Qed.

Lemma Header_Get_Add_fresh (m : http.Header) (key value : string) :
  http.Header_Values m key = [] ->
  http.Header_Get (http.Header_Add m key value) key = value.
Proof.
  intros H. unfold http.Header_Get.
  pose proof (Header_Values_Add m key value) as Hv.
  unfold http.Header_Values in Hv, H. rewrite H in Hv.
  destruct (http.Header_Add m key value !! textproto.CanonicalMIMEHeaderKey key)
    as [[|v vs]|]; cbn in Hv; congruence.
Qed.

(** Any byte sequence can be the value of the authentication header. *)
Lemma authorization_request (a : string) :
  authorization (TestBasic.request a) = a.
Proof.
  unfold authorization, TestBasic.request. cbn [http.Header_].
  now apply Header_Get_Add_fresh.
Qed.

End Challenge.

(** ** The claims *)

Section Claims.

Context {Env : Type}.
Implicit Types (h : handler Env) (st : World Env) (r : http.Request).
Implicit Types (w : ResponseRecorder) (e : Env) (c : Cause).


(** C9. Whatever bytes the authentication header holds, [ServeHTTP]
    returns normally: no index is out of range, and the world it
    leaves is the one of a challenge or the one of a forwarded call. *)
Theorem ServeHTTP_returns st r :
  exists st',
    ServeHTTP r st = Done tt st'
    /\ (st' = failed st
        \/ exists user pass,
             st' = failed (asked user pass st)
             \/ st' = forwarded r (asked user pass st)).
Proof.
  destruct (classify (this st) r (env st))
    as [[c Hrej] | (user & pass & Hcred & Hans)].
  - destruct (Cause_eq_dec c RejectedCredentials) as [->|Hc].
    + inversion Hrej as [| | | | |user pass Hcred Hans].
      exists (failed (asked user pass st)). split.
      * now apply ServeHTTP_rejects_auth.
      * right. exists user, pass. now left.
    + exists (failed st). split; [|now left].
      now apply (ServeHTTP_rejects_early st r c).
  - exists (forwarded r (asked user pass st)). split.
    + rewrite (ServeHTTP_credentials st r user pass Hcred).
      unfold answer. now rewrite Hans.
    + right. exists user, pass. now right.
Qed.

(** C10. A request rejected in steps 1 to 5 never reaches the
    verification function: it is not called, and the state it works on
    is left as it was. *)
Theorem early_rejection_skips_auth h w e r c :
  Rejects h r e c -> c <> RejectedCredentials ->
  exists st',
    ServeHTTP r (enter h w e) = Done tt st'
    /\ asks (calls st') = []
    /\ env st' = e.
Proof.
  intros Hrej Hc. exists (failed (enter h w e)). split.
  - now apply (ServeHTTP_rejects_early (enter h w e) r c).
  - now cbn.
Qed.

(** A header of the form [Basic base64(user:pass)], with no colon in
    [user] and [pass], carries the credentials [(user, pass)]. *)
Lemma encoded_credentials h r user pass :
  method h = "Basic" ->
  strings.Count user colon = 0 -> strings.Count pass colon = 0 ->
  authorization r
  = String.append "Basic "
      (base64.EncodeToString (String.append user (String colon pass))) ->
  Credentials h r user pass.
Proof.
  intros Hm Hu Hp Ha.
  exists (base64.EncodeToString (String.append user (String colon pass))),
    (String.append user (String colon pass)).
  split; [|split].
  - rewrite Ha, Hm.
    change (String.append "Basic " ?x) with (String.append "Basic" (String space x)).
    apply Split_two; [reflexivity|].
    now apply (Count_EncodeToString (String.length (String.append user (String colon pass)))).
  - apply DecodeString_EncodeToString.
  - now apply Split_two.
Qed.

Lemma asks_credentials st r user pass :
  calls st = [] ->
  asks (calls (if answer user pass st
               then forwarded r (asked user pass st)
               else failed (asked user pass st)))
  = [Call_auth user pass].
Proof.
  intros H. destruct (answer user pass st); cbn; now rewrite H.
Qed.

(** C2. A rejected request, whatever the step that rejects it, gets
    the status 401 when no status was written before, one more value
    of the header [WWW-Authenticate], which is [Basic realm=], a
    double quote, the realm as it was given to [Basic], and a double
    quote; the body is left as it was. *)
Theorem rejection_writes_challenge
  (realm : string) (onSuccess : Handler Env) (authFunc : AuthFunc Env) w e r c :
  Rejects (Basic realm onSuccess authFunc) r e c ->
  wroteHeader w = false ->
  exists st',
    ServeHTTP r (enter (Basic realm onSuccess authFunc) w e) = Done tt st'
    /\ Code (writer st') = 401%Z
    /\ http.Header_Values (HeaderMap (writer st')) "WWW-Authenticate"
       = http.Header_Values (HeaderMap w) "WWW-Authenticate"
         ++ [String.append "Basic realm="
               (String dquote (String.append realm (String dquote "")))]
    /\ Body (writer st') = Body w.
Proof.
  intros Hrej Hw.
  destruct (ServeHTTP_rejects (enter (Basic realm onSuccess authFunc) w e) r c Hrej)
    as (st0 & Hrun & Hthis & Hwriter & _).
  cbn [enter this writer] in Hthis, Hwriter.
  exists (failed st0). split; [exact Hrun|]. split; [|split].
  - apply Code_failed. now rewrite Hwriter.
  - rewrite HeaderMap_failed, Header_Values_Add, Hwriter, Hthis. reflexivity.
  - now rewrite Body_failed, Hwriter.
Qed.

(** C3, amended. For every user name and every password without a
    colon, a request whose header is [Basic] followed by the standard
    encoding of [username:password] makes the handler call the
    verification function once, with exactly these two strings. *)
Theorem round_trip_without_colon (username password : string) :
  strings.Count username colon = 0 ->
  strings.Count password colon = 0 ->
  @RoundTrip Env username password.
Proof.
  intros Hu Hp realm onSuccess authFunc w e r Ha.
  pose (h := Basic realm onSuccess authFunc).
  assert (Hcred : Credentials h r username password)
    by now apply encoded_credentials.
  eexists. split.
  - apply (ServeHTTP_credentials (enter h w e) r username password Hcred).
  - now apply asks_credentials.
Qed.

(** C4. When the scheme and the encoding are right and the decoded
    payload does not split at the colon into exactly two pieces, the
    answer is the challenge with status 401, and it is the same whatever
    verification function [f] the handler holds: [f] is not called. *)
Theorem malformed_credentials_rejected h (f : AuthFunc Env) w e r token creds :
  strings.Split (authorization r) space = [method h; token] ->
  base64.DecodeString token = Some creds ->
  length (strings.Split creds colon) <> 2 ->
  wroteHeader w = false ->
  exists st',
    ServeHTTP r (enter (with_auth h f) w e) = Done tt st'
    /\ Code (writer st') = 401%Z
    /\ writer st'
       = httptest.WriteHeader 401
           (httptest.Header_Add "WWW-Authenticate" (challenge h) w)
    /\ env st' = e
    /\ asks (calls st') = [].
Proof.
  intros Hsplit Hdec Hlen Hw.
  exists (failed (enter (with_auth h f) w e)). split.
  - apply (ServeHTTP_rejects_early _ r MalformedCredentials); [|discriminate].
    now apply (Rejects_credentials _ r e token creds).
  - split; [now apply Code_failed|]. now cbn.
Qed.

(** C5. A header of exactly two tokens whose first token is not
    the string [Basic], byte for byte, is answered with status 401,
    whatever the second token is; neither the verification function nor
    the wrapped handler is called. *)
Theorem wrong_scheme_rejected
  (realm : string) (onSuccess : Handler Env) (authFunc : AuthFunc Env)
  w e r scheme token :
  strings.Split (authorization r) space = [scheme; token] ->
  scheme <> "Basic" ->
  wroteHeader w = false ->
  exists st',
    ServeHTTP r (enter (Basic realm onSuccess authFunc) w e) = Done tt st'
    /\ Code (writer st') = 401%Z
    /\ asks (calls st') = []
    /\ forwards (calls st') = [].
Proof.
  intros Hsplit Hne Hw.
  exists (failed (enter (Basic realm onSuccess authFunc) w e)). split.
  - apply (ServeHTTP_rejects_early _ r WrongScheme); [|discriminate].
    now apply (Rejects_scheme _ r e scheme token).
  - split; [now apply Code_failed|]. now cbn.
Qed.

(** C6. When the decoded payload splits at the colon into exactly two
    pieces, these are the payload before and after its colon, the
    verification function is called once with exactly this pair, and
    if it answers true the wrapped handler is called once with the
    writer, untouched, and the request the handler was given: the
    response and the state are the wrapped handler's. *)
Theorem credentials_reach_auth h w e r token creds user pass :
  strings.Split (authorization r) space = [method h; token] ->
  base64.DecodeString token = Some creds ->
  strings.Split creds colon = [user; pass] ->
  exists st',
    ServeHTTP r (enter h w e) = Done tt st'
    /\ creds = String.append user (String colon pass)
    /\ asks (calls st') = [Call_auth user pass]
    /\ (fst (auth h user pass e) = true ->
        calls st' = [Call_auth user pass; Call_success w r]
        /\ (writer st', env st')
           = success h w r (snd (auth h user pass e))).
Proof.
  intros Hsplit Hdec Hcreds.
  assert (Hcred : Credentials h r user pass) by (now exists token, creds).
  eexists. split; [|split; [|split]].
  - apply (ServeHTTP_credentials (enter h w e) r user pass Hcred).
  - now apply (Split_two_inv colon).
  - now apply asks_credentials.
  - unfold answer. cbn [this env enter]. intros ->. split; [reflexivity|].
    cbn. now destruct (success h w r (auth h user pass e).2).
Qed.

(** C7. Two rejected requests, whatever their causes, leave the same
    response: the writer they were given with the challenge header
    added and the status 401 written, by the same two calls. *)
Theorem rejections_look_alike h w r1 e1 c1 r2 e2 c2 :
  Rejects h r1 e1 c1 ->
  Rejects h r2 e2 c2 ->
  exists st1 st2,
    ServeHTTP r1 (enter h w e1) = Done tt st1
    /\ ServeHTTP r2 (enter h w e2) = Done tt st2
    /\ writer st1 = writer st2
    /\ writer st1
       = httptest.WriteHeader 401
           (httptest.Header_Add "WWW-Authenticate" (challenge h) w)
    /\ writes (calls st1) = writes (calls st2).
Proof.
  intros Hrej1 Hrej2.
  assert (Hone : forall r e c,
    Rejects h r e c ->
    exists st',
      ServeHTTP r (enter h w e) = Done tt st'
      /\ writer st'
         = httptest.WriteHeader 401
             (httptest.Header_Add "WWW-Authenticate" (challenge h) w)
      /\ writes (calls st')
         = [Call_Header_Add "WWW-Authenticate" (challenge h);
            Call_WriteHeader 401]).
  { intros r e c Hrej.
    destruct (Cause_eq_dec c RejectedCredentials) as [->|Hc].
    - inversion Hrej as [| | | | |user pass Hcred Hans].
      exists (failed (asked user pass (enter h w e))). split; [|now cbn].
      now apply ServeHTTP_rejects_auth.
    - exists (failed (enter h w e)). split; [|now cbn].
      now apply (ServeHTTP_rejects_early (enter h w e) r c). }
  destruct (Hone r1 e1 c1 Hrej1) as (st1 & Hrun1 & Hw1 & Hc1).
  destruct (Hone r2 e2 c2 Hrej2) as (st2 & Hrun2 & Hw2 & Hc2).
  exists st1, st2. repeat split; congruence.
Qed.

(** The receiver is read, never written. *)
Lemma this_unchanged st r st' :
  ServeHTTP r st = Done tt st' -> this st' = this st.
Proof.
  intros Hrun.
  destruct (classify (this st) r (env st))
    as [[c Hrej] | (user & pass & Hcred & Hans)].
  - destruct (ServeHTTP_rejects st r c Hrej) as (st0 & Hrun' & Hthis & _).
    rewrite Hrun in Hrun'. injection Hrun' as ->. exact Hthis.
  - rewrite (ServeHTTP_credentials st r user pass Hcred) in Hrun.
    injection Hrun as <-. now destruct (answer user pass st).
Qed.

(** C8. The handler keeps nothing between requests.  Handling a
    request leaves its configuration as it was.  What it does for a
    request is fixed by the request and by the answers of the
    verification function at that moment: two runs in states in which
    the function answers alike make the same calls.  After a request
    that was forwarded, the same request is rejected with status 401
    in any state in which the function answers false.  And with a
    function that always answers true, the request is forwarded the
    second time as it was the first time. *)
Theorem nothing_kept_between_requests h w e r user pass :
  Credentials h r user pass ->
  exists st1,
    ServeHTTP r (enter h w e) = Done tt st1
    /\ this st1 = h
    /\ (forall r' w' e' st', ServeHTTP r' (enter h w' e') = Done tt st' ->
                             this st' = h)
    /\ (forall e', fst (auth h user pass e') = fst (auth h user pass e) ->
          exists st', ServeHTTP r (enter h w e') = Done tt st'
                      /\ calls st' = calls st1)
    /\ (forall w2 e2,
          fst (auth h user pass e2) = false -> wroteHeader w2 = false ->
          exists st2,
            ServeHTTP r (enter (this st1) w2 e2) = Done tt st2
            /\ Code (writer st2) = 401%Z
            /\ forwards (calls st2) = [])
    /\ ((forall u p e', fst (auth h u p e') = true) ->
        calls st1 = [Call_auth user pass; Call_success w r]
        /\ exists st2,
             ServeHTTP r (enter (this st1) w (env st1)) = Done tt st2
             /\ calls st2 = calls st1).
Proof.
  intros Hcred.
  pose proof (fun w' e' => ServeHTTP_credentials (enter h w' e') r user pass Hcred)
    as Hrun.
  eexists. split; [apply Hrun|].
  assert (Hthis : forall w' e',
    this (if answer user pass (enter h w' e')
          then forwarded r (asked user pass (enter h w' e'))
          else failed (asked user pass (enter h w' e'))) = h).
  { intros w' e'. now destruct (answer user pass (enter h w' e')). }
  split; [apply Hthis|]. split; [|split; [|split]].
  - intros r' w' e' st' Hrun'. now apply this_unchanged in Hrun'.
  - intros e' Hsame. eexists. split; [apply Hrun|].
    unfold answer. cbn [this env enter]. rewrite Hsame.
    now destruct (fst (auth h user pass e)).
  - intros w2 e2 Hfalse Hw2. rewrite Hthis.
    eexists. split; [apply Hrun|].
    unfold answer. cbn [this env enter]. rewrite Hfalse.
    split; [now apply Code_failed | reflexivity].
  - intros Htrue. rewrite Hthis.
    unfold answer. cbn [this env enter]. rewrite (Htrue user pass e).
    split; [reflexivity|].
    eexists. split; [apply Hrun|].
    unfold answer. cbn [this env enter]. now rewrite Htrue.
Qed.

End Claims.

(** ** The claims on the handler of [TestBasic] *)

Import TestBasic.

Lemma rejection_writes_challenge_witness :
  exists st',
    ServeHTTP (request "Basic dGVzdDpub3RoaW5nLzEyMw==")
      (enter (Basic "test-realm" onSuccess authFunc) NewRecorder (vars0 true))
    = Done tt st'
    /\ Code (writer st') = 401%Z
    /\ http.Header_Values (HeaderMap (writer st')) "WWW-Authenticate"
       = http.Header_Values (HeaderMap NewRecorder) "WWW-Authenticate"
         ++ [String.append "Basic realm="
               (String dquote (String.append "test-realm" (String dquote "")))]
    /\ Body (writer st') = Body NewRecorder.
Proof.
  apply (rejection_writes_challenge "test-realm" onSuccess authFunc
           NewRecorder (vars0 true) _ RejectedCredentials).
  - apply (Rejects_auth _ _ _ "test" "nothing/123").
    + exists "dGVzdDpub3RoaW5nLzEyMw==", "test:nothing/123".
      repeat split; reflexivity.
    + reflexivity.
  - reflexivity.
Defined.

(** C3 as it is stated fails on a password with a colon: the request
    for [user] and [pa:ss] is rejected before the verification function
    is called. *)
Lemma round_trip_colon_counterexample :
  ~ @RoundTrip Vars "user" "pa:ss".
Proof.
  intros H.
  destruct (H "test-realm" onSuccess authFunc NewRecorder (vars0 false)
              (request "Basic dXNlcjpwYTpzcw==") eq_refl)
    as (st' & Hrun & Hasks).
  rewrite (ServeHTTP_rejects_early _ _ MalformedCredentials) in Hrun.
  - injection Hrun as <-. discriminate Hasks.
  - apply (Rejects_credentials _ _ _ "dXNlcjpwYTpzcw==" "user:pa:ss");
      [reflexivity | reflexivity | discriminate].
  - discriminate.
Qed.

Lemma round_trip_without_colon_witness :
  strings.Count "test" colon = 0
  /\ strings.Count "nothing/123" colon = 0
  /\ @RoundTrip Vars "test" "nothing/123".
Proof.
  split; [reflexivity|]. split; [reflexivity|].
  apply (round_trip_without_colon "test" "nothing/123"); reflexivity.
Defined.

Lemma malformed_credentials_rejected_witness :
  exists st',
    ServeHTTP (request "Basic dGVzdDpub3RoaW5nLzEyMzphYnM=")
      (enter (with_auth handler (fun _ _ e => (true, e))) NewRecorder (vars0 false))
    = Done tt st'
    /\ Code (writer st') = 401%Z
    /\ writer st'
       = httptest.WriteHeader 401
           (httptest.Header_Add "WWW-Authenticate" (challenge handler) NewRecorder)
    /\ env st' = vars0 false
    /\ asks (calls st') = [].
Proof.
  apply (malformed_credentials_rejected handler (fun _ _ e => (true, e))
           NewRecorder (vars0 false) _
           "dGVzdDpub3RoaW5nLzEyMzphYnM=" "test:nothing/123:abs").
  - reflexivity.
  - reflexivity.
  - discriminate.
  - reflexivity.
Defined.

Lemma wrong_scheme_rejected_witness :
  exists st',
    ServeHTTP (request "basic dGVzdDpub3RoaW5nLzEyMw==")
      (enter (Basic "test-realm" onSuccess authFunc) NewRecorder (vars0 false))
    = Done tt st'
    /\ Code (writer st') = 401%Z
    /\ asks (calls st') = []
    /\ forwards (calls st') = [].
Proof.
  apply (wrong_scheme_rejected "test-realm" onSuccess authFunc
           NewRecorder (vars0 false) _ "basic" "dGVzdDpub3RoaW5nLzEyMw==").
  - reflexivity.
  - discriminate.
  - reflexivity.
Defined.

Lemma credentials_reach_auth_witness :
  exists st',
    ServeHTTP (request "Basic dGVzdDpub3RoaW5nLzEyMw==")
      (enter handler NewRecorder (vars0 false))
    = Done tt st'
    /\ "test:nothing/123" = String.append "test" (String colon "nothing/123")
    /\ asks (calls st') = [Call_auth "test" "nothing/123"]
    /\ (fst (auth handler "test" "nothing/123" (vars0 false)) = true ->
        calls st'
        = [Call_auth "test" "nothing/123";
           Call_success NewRecorder (request "Basic dGVzdDpub3RoaW5nLzEyMw==")]
        /\ (writer st', env st')
           = success handler NewRecorder
               (request "Basic dGVzdDpub3RoaW5nLzEyMw==")
               (snd (auth handler "test" "nothing/123" (vars0 false)))).
Proof.
  apply (credentials_reach_auth handler NewRecorder (vars0 false) _
           "dGVzdDpub3RoaW5nLzEyMw==" "test:nothing/123" "test" "nothing/123");
    reflexivity.
Defined.

Lemma rejections_look_alike_witness :
  exists st1 st2,
    ServeHTTP (request "") (enter handler NewRecorder (vars0 false)) = Done tt st1
    /\ ServeHTTP (request "Basic dGVzdDpub3RoaW5nLzEyMw==")
         (enter handler NewRecorder (vars0 true)) = Done tt st2
    /\ writer st1 = writer st2
    /\ writer st1
       = httptest.WriteHeader 401
           (httptest.Header_Add "WWW-Authenticate" (challenge handler) NewRecorder)
    /\ writes (calls st1) = writes (calls st2).
Proof.
  apply (rejections_look_alike handler NewRecorder
           _ (vars0 false) MissingHeader _ (vars0 true) RejectedCredentials).
  - apply Rejects_missing. reflexivity.
  - apply (Rejects_auth _ _ _ "test" "nothing/123").
    + exists "dGVzdDpub3RoaW5nLzEyMw==", "test:nothing/123".
      repeat split; reflexivity.
    + reflexivity.
Defined.

Lemma early_rejection_skips_auth_witness :
  exists st',
    ServeHTTP (request "Basic #%@") (enter handler NewRecorder (vars0 false))
    = Done tt st'
    /\ asks (calls st') = []
    /\ env st' = vars0 false.
Proof.
  apply (early_rejection_skips_auth handler NewRecorder (vars0 false) _ BadEncoding).
  - apply (Rejects_encoding _ _ _ "#%@"); reflexivity.
  - discriminate.
Defined.

Lemma nothing_kept_between_requests_witness :
  exists st1,
    ServeHTTP (request "Basic dGVzdDpub3RoaW5nLzEyMw==")
      (enter handler NewRecorder (vars0 false)) = Done tt st1
    /\ this st1 = handler
    /\ (forall r' w' e' st', ServeHTTP r' (enter handler w' e') = Done tt st' ->
                             this st' = handler)
    /\ (forall e', fst (auth handler "test" "nothing/123" e')
                   = fst (auth handler "test" "nothing/123" (vars0 false)) ->
          exists st', ServeHTTP (request "Basic dGVzdDpub3RoaW5nLzEyMw==")
                        (enter handler NewRecorder e') = Done tt st'
                      /\ calls st' = calls st1)
    /\ (forall w2 e2,
          fst (auth handler "test" "nothing/123" e2) = false ->
          wroteHeader w2 = false ->
          exists st2,
            ServeHTTP (request "Basic dGVzdDpub3RoaW5nLzEyMw==")
              (enter (this st1) w2 e2) = Done tt st2
            /\ Code (writer st2) = 401%Z
            /\ forwards (calls st2) = [])
    /\ ((forall u p e', fst (auth handler u p e') = true) ->
        calls st1
        = [Call_auth "test" "nothing/123";
           Call_success NewRecorder (request "Basic dGVzdDpub3RoaW5nLzEyMw==")]
        /\ exists st2,
             ServeHTTP (request "Basic dGVzdDpub3RoaW5nLzEyMw==")
               (enter (this st1) NewRecorder (env st1)) = Done tt st2
             /\ calls st2 = calls st1).
Proof.
  apply (nothing_kept_between_requests handler NewRecorder (vars0 false)
           (request "Basic dGVzdDpub3RoaW5nLzEyMw==") "test" "nothing/123").
  exists "dGVzdDpub3RoaW5nLzEyMw==", "test:nothing/123".
  repeat split; reflexivity.
Defined.

(** * More of the package *)

(** ** What the decoder makes of a token *)

Section TokenFacts.

Import base64.

Lemma is_newline_decodeMap (c : ascii) :
  is_newline c = true -> decodeMap c = 255%Z.
Proof.
  unfold is_newline. intros H. apply orb_true_iff in H.
  destruct H as [H|H]; apply Ascii.eqb_eq in H; subst c; reflexivity.
Qed.

Lemma decode_newline (c : ascii) (rest : string) (dbuf : list Z) :
  is_newline c = true -> decode (String c rest) dbuf = decode rest dbuf.
Proof.
  intros H. cbn [decode]. rewrite (is_newline_decodeMap c H), H. reflexivity.
Qed.

Lemma decode_foreign (c : ascii) (rest : string) (dbuf : list Z) :
  known_byte c = false -> decode (String c rest) dbuf = None.
Proof.
  unfold known_byte. intros H.
  apply orb_false_iff in H. destruct H as [H Hpad].
  apply orb_false_iff in H. destruct H as [Hmap Hnl].
  cbn [decode]. rewrite Hmap, Hnl, Hpad. reflexivity.
Qed.

Lemma decode_pad (rest : string) (dbuf : list Z) :
  decode (String padChar rest) dbuf
  = match dbuf with
    | [d0; d1] =>
        match skip_newlines rest with
        | EmptyString => None
        | String c2 rest2 =>
            if negb (Ascii.eqb c2 padChar) then None
            else match skip_newlines rest2 with
                 | EmptyString => Some (quantum 2 d0 d1 0 0)
                 | String _ _ => None
                 end
        end
    | [d0; d1; d2] =>
        match skip_newlines rest with
        | EmptyString => Some (quantum 3 d0 d1 d2 0)
        | String _ _ => None
        end
    | _ => None
    end.
Proof. reflexivity. Qed.

(** The three kinds of bytes the decoder goes on with. *)
Lemma known_byte_cases (c : ascii) :
  known_byte c = true ->
  (decodeMap c =? 255)%Z = false \/ is_newline c = true \/ c = padChar.
Proof.
  unfold known_byte. intros H.
  apply orb_true_iff in H. destruct H as [H|H].
  - apply orb_true_iff in H. destruct H as [H|H].
    + left. now apply negb_true_iff.
    + right. now left.
  - right. right. now apply Ascii.eqb_eq.
Qed.

Lemma skip_newlines_cases (s : string) :
  (skip_newlines s = EmptyString
   /\ strip_newlines s = EmptyString /\ all_known s = true)
  \/ (exists c rest,
        skip_newlines s = String c rest
        /\ is_newline c = false
        /\ strip_newlines s = String c (strip_newlines rest)
        /\ all_known s = (known_byte c && all_known rest)%bool).
Proof.
  induction s as [|c s IH].
  - left. repeat split.
  - cbn [skip_newlines strip_newlines all_known].
    destruct (is_newline c) eqn:Hc.
    + assert (Hk : known_byte c = true).
      { unfold known_byte. rewrite Hc. now rewrite orb_true_r. }
      rewrite Hk. exact IH.
    + right. exists c, s. repeat split. exact Hc.
Qed.

Lemma skip_newlines_strip (s : string) :
  skip_newlines (strip_newlines s) = strip_newlines s.
Proof.
  induction s as [|c s IH]; [reflexivity|].
  cbn [strip_newlines]. destruct (is_newline c) eqn:Hc; [exact IH|].
  cbn [skip_newlines]. now rewrite Hc.
Qed.

(** Line feeds and carriage returns make no difference. *)
Lemma decode_strip_newlines (s : string) :
  forall dbuf : list Z, decode s dbuf = decode (strip_newlines s) dbuf.
Proof.
  induction s as [|c s IH]; intros dbuf; [reflexivity|].
  cbn [strip_newlines]. destruct (is_newline c) eqn:Hnl.
  - rewrite decode_newline by exact Hnl. apply IH.
  - destruct (known_byte c) eqn:Hk.
    2: { now rewrite !decode_foreign. }
    destruct (known_byte_cases c Hk) as [Hmap | [Hnl' | ->]].
    + rewrite !(decode_symbol c _ dbuf (decodeMap c) eq_refl Hmap).
      destruct dbuf as [|d0 [|d1 [|d2 [|d3 more]]]]; rewrite IH; reflexivity.
    + congruence.
    + rewrite !decode_pad. rewrite !skip_newlines_strip.
      destruct (skip_newlines_cases s)
        as [(E1 & E2 & _) | (c2 & rest2 & E1 & Hc2 & E2 & _)].
      * rewrite E1, E2. reflexivity.
      * rewrite E1, E2. cbv beta iota. rewrite skip_newlines_strip.
        assert (Hin : match skip_newlines rest2 with
                      | EmptyString => true | String _ _ => false end
                      = match strip_newlines rest2 with
                        | EmptyString => true | String _ _ => false end).
        { destruct (skip_newlines_cases rest2)
            as [(F1 & F2 & _) | (c3 & rest3 & F1 & _ & F2 & _)];
            now rewrite F1, F2. }
        destruct (skip_newlines rest2), (strip_newlines rest2);
          try discriminate Hin; reflexivity.
Qed.

(** A byte the decoder does not know makes the token corrupt. *)
Lemma decode_all_known (s : string) :
  forall dbuf : list Z, all_known s = false -> decode s dbuf = None.
Proof.
  induction s as [|c s IH]; intros dbuf H; [discriminate|].
  cbn [all_known] in H.
  destruct (known_byte c) eqn:Hk; [|now apply decode_foreign].
  cbn [andb] in H.
  destruct (known_byte_cases c Hk) as [Hmap | [Hnl | ->]].
  - rewrite (decode_symbol c _ dbuf (decodeMap c) eq_refl Hmap).
    destruct dbuf as [|d0 [|d1 [|d2 [|d3 more]]]]; rewrite IH by exact H;
      reflexivity.
  - rewrite decode_newline by exact Hnl. now apply IH.
  - rewrite decode_pad.
    destruct (skip_newlines_cases s)
      as [(E1 & _ & E3) | (c2 & rest2 & E1 & _ & _ & E3)]; [congruence|].
    rewrite E1.
    destruct dbuf as [|d0 [|d1 [|d2 [|d3 more]]]]; try reflexivity.
    destruct (Ascii.eqb c2 padChar) eqn:Hc2; [|reflexivity]. cbn [negb].
    destruct (skip_newlines_cases rest2)
      as [(F1 & _ & F3) | (c3 & rest3 & F1 & _)].
    + apply Ascii.eqb_eq in Hc2. subst c2.
      rewrite E3, F3 in H. discriminate.
    + now rewrite F1.
Qed.

Lemma symbols_cons (c : ascii) (s : string) :
  symbols (String c s) = if is_newline c then symbols s else S (symbols s).
Proof.
  unfold symbols. cbn [strip_newlines]. now destruct (is_newline c).
Qed.

(** What the decoder accepts comes in groups of four symbols. *)
Lemma decode_symbols (s : string) :
  forall (dbuf : list Z) (out : string),
    length dbuf <= 3 -> decode s dbuf = Some out ->
    exists k, length dbuf + symbols s = 4 * k.
Proof.
  induction s as [|c s IH]; intros dbuf out Hlen H.
  - destruct dbuf; [|discriminate]. now exists 0.
  - destruct (known_byte c) eqn:Hk.
    2: { rewrite decode_foreign in H by exact Hk. discriminate. }
    rewrite symbols_cons.
    destruct (known_byte_cases c Hk) as [Hmap | [Hnl | ->]].
    + assert (Hnl : is_newline c = false).
      { destruct (is_newline c) eqn:E; [|reflexivity].
        apply is_newline_decodeMap in E. rewrite E in Hmap. discriminate. }
      rewrite Hnl.
      rewrite (decode_symbol c _ dbuf (decodeMap c) eq_refl Hmap) in H.
      destruct dbuf as [|d0 [|d1 [|d2 [|d3 more]]]];
        try (cbn in Hlen; lia).
      1-3: apply IH in H; [|cbn; lia]; destruct H as [k Hk'];
        exists k; cbn in Hk' |- *; lia.
      destruct (decode s []) as [out'|] eqn:E; [|discriminate].
      destruct (IH [] out' (ltac:(cbn; lia)) E) as [k Hk'].
      exists (S k). cbn in Hk' |- *. lia.
    + rewrite Hnl. rewrite decode_newline in H by exact Hnl.
      now apply (IH dbuf out).
    + change (is_newline padChar) with false. cbv iota.
      rewrite decode_pad in H.
      unfold symbols in *.
      destruct dbuf as [|d0 [|d1 [|d2 [|d3 more]]]]; try discriminate.
      * destruct (skip_newlines_cases s)
          as [(E1 & _) | (c2 & rest2 & E1 & _ & E2 & _)];
          rewrite E1 in H; [discriminate|].
        destruct (Ascii.eqb c2 padChar); [|discriminate]. cbn [negb] in H.
        destruct (skip_newlines_cases rest2)
          as [(F1 & F2 & _) | (c3 & rest3 & F1 & _)];
          rewrite F1 in H; [|discriminate].
        exists 1. rewrite E2, F2. reflexivity.
      * destruct (skip_newlines_cases s)
          as [(E1 & E2 & _) | (c2 & rest2 & E1 & _)];
          rewrite E1 in H; [|discriminate].
        exists 1. rewrite E2. reflexivity.
Qed.

End TokenFacts.

(** ** The calls of a run, and what they are made with *)

Section Runs.

Context {Env : Type}.
Implicit Types (h : httpauth.handler Env) (st : World Env) (r : http.Request).
Implicit Types (w : ResponseRecorder) (e : Env) (c : Cause).

(** The two ways of a run: rejected before the verification function,
    or decided by it. *)
Lemma run_cases h w e r :
  (exists c,
     Rejects h r e c /\ c <> RejectedCredentials
     /\ ServeHTTP r (enter h w e) = Done tt (failed (enter h w e)))
  \/ (exists user pass,
        Credentials h r user pass
        /\ ServeHTTP r (enter h w e)
           = Done tt (if fst (auth h user pass e)
                      then forwarded r (asked user pass (enter h w e))
                      else failed (asked user pass (enter h w e)))).
Proof.
  assert (Hcred : forall user pass,
    Credentials h r user pass ->
    ServeHTTP r (enter h w e)
    = Done tt (if fst (auth h user pass e)
               then forwarded r (asked user pass (enter h w e))
               else failed (asked user pass (enter h w e)))).
  { intros user pass H.
    exact (ServeHTTP_credentials (enter h w e) r user pass H). }
  destruct (classify h r e) as [[c Hrej] | (user & pass & H & _)].
  - destruct (Cause_eq_dec c RejectedCredentials) as [->|Hc].
    + inversion Hrej as [| | | | |user pass H Hans].
      right. exists user, pass. split; [exact H | now apply Hcred].
    + left. exists c. repeat split; trivial.
      now apply (ServeHTTP_rejects_early (enter h w e) r c).
  - right. exists user, pass. split; [exact H | now apply Hcred].
Qed.

(** The header and the payload behind a pair of credentials. *)
Lemma Credentials_shape h r user pass :
  Credentials h r user pass ->
  strings.Count user colon = 0 /\ strings.Count pass colon = 0
  /\ exists token,
       authorization r = String.append (method h) (String space token)
       /\ strings.Count token space = 0
       /\ base64.DecodeString token
          = Some (String.append user (String colon pass)).
Proof.
  intros (token & creds & Hsplit & Hdec & Hcreds).
  destruct (Split_two_inv colon _ _ _ Hcreds) as (-> & Hu & Hp).
  destruct (Split_two_inv space _ _ _ Hsplit) as (Ha & _ & Ht).
  split; [exact Hu|]. split; [exact Hp|]. now exists token.
Qed.



(** X2. A run makes one of three sequences of calls: the challenge
    alone; the verification function and then the challenge; the
    verification function and then the wrapped handler.  So the
    function is called at most once, before anything is written, and
    nothing is written before or after a forwarded call. *)
Theorem calls_in_order h w e r :
  exists st',
    ServeHTTP r (enter h w e) = Done tt st'
    /\ (calls st'
        = [Call_Header_Add "WWW-Authenticate" (challenge h);
           Call_WriteHeader 401]
        \/ exists user pass,
             calls st'
             = [Call_auth user pass;
                Call_Header_Add "WWW-Authenticate" (challenge h);
                Call_WriteHeader 401]
             \/ calls st' = [Call_auth user pass; Call_success w r]).
Proof.
  destruct (run_cases h w e r)
    as [(c & Hrej & Hc & Hrun) | (user & pass & Hcred & Hrun)];
    (eexists; split; [exact Hrun|]).
  - now left.
  - right. exists user, pass.
    destruct (fst (auth h user pass e)); [now right | now left].
Qed.

(** X3. The verification function is only ever called with a user
    name and a password that hold no colon, and only for a header that
    is the scheme, one space, and a token without a space that decodes
    to the user name, a colon and the password. *)
Theorem auth_arguments h w e r :
  exists st',
    ServeHTTP r (enter h w e) = Done tt st'
    /\ forall user pass,
         In (Call_auth user pass) (calls st') ->
         strings.Count user colon = 0 /\ strings.Count pass colon = 0
         /\ exists token,
              authorization r = String.append (method h) (String space token)
              /\ strings.Count token space = 0
              /\ base64.DecodeString token
                 = Some (String.append user (String colon pass)).
Proof.
  destruct (run_cases h w e r)
    as [(c & Hrej & Hc & Hrun) | (user & pass & Hcred & Hrun)];
    (eexists; split; [exact Hrun|]); intros user' pass' Hin.
  - cbn in Hin. destruct Hin as [Hin | [Hin | []]]; discriminate Hin.
  - assert (Heq : Call_auth user' pass' = Call_auth user pass).
    { destruct (fst (auth h user pass e)); cbn in Hin;
        repeat (destruct Hin as [Hin|Hin]; [congruence || discriminate Hin|]);
        destruct Hin. }
    injection Heq as -> ->. now apply (Credentials_shape h r).
Qed.

(** X4. A header that holds no space, or more than one, is answered
    with the challenge alone: a second space anywhere, also at its end,
    rejects it. *)
Theorem one_space_or_rejected h w e r :
  strings.Count (authorization r) space <> 1 ->
  exists st',
    ServeHTTP r (enter h w e) = Done tt st'
    /\ calls st'
       = [Call_Header_Add "WWW-Authenticate" (challenge h);
          Call_WriteHeader 401]
    /\ env st' = e.
Proof.
  intros Hcount. exists (failed (enter h w e)). split; [|now split].
  apply (ServeHTTP_rejects_early _ r MalformedHeader); [|discriminate].
  apply Rejects_malformed. now apply Split_length_two.
Qed.

Lemma bad_token_rejected h w e r token :
  strings.Split (authorization r) space = [method h; token] ->
  base64.DecodeString token = None ->
  exists st',
    ServeHTTP r (enter h w e) = Done tt st'
    /\ calls st'
       = [Call_Header_Add "WWW-Authenticate" (challenge h);
          Call_WriteHeader 401]
    /\ env st' = e.
Proof.
  intros Hsplit Hdec. exists (failed (enter h w e)). split; [|now split].
  apply (ServeHTTP_rejects_early _ r BadEncoding); [|discriminate].
  now apply (Rejects_encoding _ r e token).
Qed.

(** X5. A token with a byte that is neither of the standard alphabet
    nor the padding nor a line feed or carriage return (a [-] or [_] of
    the URL alphabet, say) is answered with the challenge alone. *)
Theorem foreign_byte_rejected h w e r token :
  strings.Split (authorization r) space = [method h; token] ->
  all_known token = false ->
  exists st',
    ServeHTTP r (enter h w e) = Done tt st'
    /\ calls st'
       = [Call_Header_Add "WWW-Authenticate" (challenge h);
          Call_WriteHeader 401]
    /\ env st' = e.
Proof.
  intros Hsplit Hbad. apply (bad_token_rejected h w e r token Hsplit).
  now apply decode_all_known.
Qed.

(** X6. A token whose bytes, line feeds and carriage returns apart,
    are not a multiple of four in number (a token without its padding,
    say) is answered with the challenge alone. *)
Theorem unpadded_token_rejected h w e r token :
  strings.Split (authorization r) space = [method h; token] ->
  Nat.modulo (symbols token) 4 <> 0 ->
  exists st',
    ServeHTTP r (enter h w e) = Done tt st'
    /\ calls st'
       = [Call_Header_Add "WWW-Authenticate" (challenge h);
          Call_WriteHeader 401]
    /\ env st' = e.
Proof.
  intros Hsplit Hmod. apply (bad_token_rejected h w e r token Hsplit).
  destruct (base64.DecodeString token) as [out|] eqn:Hdec; [|reflexivity].
  exfalso. apply Hmod.
  destruct (decode_symbols token [] out (Nat.le_0_l 3) Hdec) as [k Hk].
  cbn [length Nat.add] in Hk. rewrite Hk, Nat.mul_comm.
  apply Nat.Div0.mod_mul.
Qed.

(** X7. Line feeds and carriage returns in the token are passed
    over: the verification function is called with what the token
    without them decodes to. *)
Theorem line_breaks_passed_over h w e r token creds user pass :
  strings.Split (authorization r) space = [method h; token] ->
  base64.DecodeString (strip_newlines token) = Some creds ->
  strings.Split creds colon = [user; pass] ->
  exists st',
    ServeHTTP r (enter h w e) = Done tt st'
    /\ asks (calls st') = [Call_auth user pass].
Proof.
  intros Hsplit Hdec Hcreds.
  assert (Hcred : Credentials h r user pass).
  { exists token, creds. repeat split; trivial.
    unfold base64.DecodeString in *. now rewrite decode_strip_newlines. }
  eexists. split.
  - apply (ServeHTTP_credentials (enter h w e) r user pass Hcred).
  - now apply asks_credentials.
Qed.

End Runs.

(** ** What a run reads and what a rejection leaves alone *)

Section Frame.

Context {Env : Type}.
Implicit Types (h : httpauth.handler Env) (st : World Env) (r : http.Request).
Implicit Types (w : ResponseRecorder) (e : Env) (c : Cause).




Lemma Code_failed_written st :
  wroteHeader (writer st) = true ->
  Code (writer (failed st)) = Code (writer st).
Proof.
  intros H. unfold failed, httptest.WriteHeader. cbn. now rewrite H.
Qed.

Lemma Header_Values_Add_other (m : http.Header) (key value key' : string) :
  textproto.CanonicalMIMEHeaderKey key' <> textproto.CanonicalMIMEHeaderKey key ->
  http.Header_Values (http.Header_Add m key value) key'
  = http.Header_Values m key'.
Proof.
  intros Hne. unfold http.Header_Values, http.Header_Add.
  now rewrite lookup_insert_ne.
Qed.

(** X9. When a status was written to the writer before the handler is
    called, a rejection does not change it: the status stays what it
    was, and the challenge header is added all the same. *)
Theorem written_status_stays h w e r c :
  Rejects h r e c ->
  wroteHeader w = true ->
  exists st',
    ServeHTTP r (enter h w e) = Done tt st'
    /\ Code (writer st') = Code w
    /\ http.Header_Values (HeaderMap (writer st')) "WWW-Authenticate"
       = http.Header_Values (HeaderMap w) "WWW-Authenticate" ++ [challenge h].
Proof.
  intros Hrej Hw.
  destruct (ServeHTTP_rejects (enter h w e) r c Hrej)
    as (st0 & Hrun & Hthis & Hwriter & _).
  cbn [enter this writer] in Hthis, Hwriter.
  exists (failed st0). split; [exact Hrun|]. split.
  - rewrite Code_failed_written; now rewrite Hwriter.
  - now rewrite HeaderMap_failed, Header_Values_Add, Hwriter, Hthis.
Qed.

(** X10. A rejection touches no header but [WWW-Authenticate]: the
    values of every header with another canonical name are what they
    were. *)
Theorem other_headers_kept h w e r c (key : string) :
  Rejects h r e c ->
  textproto.CanonicalMIMEHeaderKey key <> "Www-Authenticate" ->
  exists st',
    ServeHTTP r (enter h w e) = Done tt st'
    /\ http.Header_Values (HeaderMap (writer st')) key
       = http.Header_Values (HeaderMap w) key.
Proof.
  intros Hrej Hkey.
  destruct (ServeHTTP_rejects (enter h w e) r c Hrej)
    as (st0 & Hrun & Hthis & Hwriter & _).
  cbn [enter this writer] in Hthis, Hwriter.
  exists (failed st0). split; [exact Hrun|].
  rewrite HeaderMap_failed, Header_Values_Add_other, Hwriter; trivial.
Qed.

(** ** Handlers in handlers *)

(** [serve] is the run of [ServeHTTP]: the last case of its definition
    is never taken. *)
Lemma serve_Done h w r e :
  exists st',
    ServeHTTP r (enter h w e) = Done tt st'
    /\ serve h w r e = (writer st', env st').
Proof.
  unfold serve.
  destruct (run_cases h w e r)
    as [(c & _ & _ & Hrun) | (user & pass & _ & Hrun)];
    rewrite Hrun; eexists; split; reflexivity.
Qed.

(** The response of a challenge for a realm. *)
Lemma serve_credentials h w r e user pass :
  Credentials h r user pass ->
  serve h w r e
  = if fst (auth h user pass e)
    then success h w r (snd (auth h user pass e))
    else (httptest.WriteHeader 401
            (httptest.Header_Add "WWW-Authenticate" (challenge h) w),
          snd (auth h user pass e)).
Proof.
  intros Hcred. unfold serve.
  rewrite (ServeHTTP_credentials (enter h w e) r user pass Hcred).
  unfold answer. cbn [this env enter].
  destruct (fst (auth h user pass e)); cbn; [|reflexivity].
  now destruct (success h w r (auth h user pass e).2).
Qed.

(** X11. A handler made by [Basic] can be wrapped by another one.
    For a request with credentials, the outer verification function
    is asked first and the inner one, in the state the outer one left,
    second, both with the same pair; the innermost handler runs when
    both answer true, on the untouched writer; otherwise the response
    is the challenge of the first one that answers false, with its own
    realm. *)
Theorem stacked_handlers
  (realm1 realm2 : string) (inner : Handler Env) (auth1 auth2 : AuthFunc Env)
  w e r user pass :
  Credentials (Basic realm1 (serve (Basic realm2 inner auth2)) auth1)
    r user pass ->
  serve (Basic realm1 (serve (Basic realm2 inner auth2)) auth1) w r e
  = if fst (auth1 user pass e)
    then if fst (auth2 user pass (snd (auth1 user pass e)))
         then inner w r (snd (auth2 user pass (snd (auth1 user pass e))))
         else (httptest.WriteHeader 401
                 (httptest.Header_Add "WWW-Authenticate"
                    (Sprintf_realm "Basic" realm2) w),
               snd (auth2 user pass (snd (auth1 user pass e))))
    else (httptest.WriteHeader 401
            (httptest.Header_Add "WWW-Authenticate"
               (Sprintf_realm "Basic" realm1) w),
          snd (auth1 user pass e)).
Proof.
  intros Hcred.
  rewrite (serve_credentials _ w r e user pass Hcred). cbn [auth success Basic].
  destruct (fst (auth1 user pass e)); [|reflexivity].
  assert (Hcred2 : Credentials (Basic realm2 inner auth2) r user pass)
    by exact Hcred.
  now rewrite (serve_credentials _ w r _ user pass Hcred2).
Qed.

(** ** The example and the test of the package *)


End Frame.


(** ** These properties on the handler of [TestBasic] *)

Lemma one_space_or_rejected_witness :
  exists st',
    ServeHTTP (request "Basic dGVzdDpub3RoaW5nLzEyMw== ")
      (enter handler NewRecorder (vars0 false)) = Done tt st'
    /\ calls st'
       = [Call_Header_Add "WWW-Authenticate" (challenge handler);
          Call_WriteHeader 401]
    /\ env st' = vars0 false.
Proof.
  apply (one_space_or_rejected handler NewRecorder (vars0 false)
           (request "Basic dGVzdDpub3RoaW5nLzEyMw== ")).
  vm_compute. discriminate.
Defined.

Lemma foreign_byte_rejected_witness :
  exists st',
    ServeHTTP (request "Basic dGVzdDpub3RoaW5nLzEy_w==")
      (enter handler NewRecorder (vars0 false)) = Done tt st'
    /\ calls st'
       = [Call_Header_Add "WWW-Authenticate" (challenge handler);
          Call_WriteHeader 401]
    /\ env st' = vars0 false.
Proof.
  apply (foreign_byte_rejected handler NewRecorder (vars0 false)
           (request "Basic dGVzdDpub3RoaW5nLzEy_w==")
           "dGVzdDpub3RoaW5nLzEy_w==").
  - reflexivity.
  - reflexivity.
Defined.

Lemma unpadded_token_rejected_witness :
  exists st',
    ServeHTTP (request "Basic dGVzdDpub3RoaW5nLzEyMw")
      (enter handler NewRecorder (vars0 false)) = Done tt st'
    /\ calls st'
       = [Call_Header_Add "WWW-Authenticate" (challenge handler);
          Call_WriteHeader 401]
    /\ env st' = vars0 false.
Proof.
  apply (unpadded_token_rejected handler NewRecorder (vars0 false)
           (request "Basic dGVzdDpub3RoaW5nLzEyMw")
           "dGVzdDpub3RoaW5nLzEyMw").
  - reflexivity.
  - vm_compute. discriminate.
Defined.

Lemma line_breaks_passed_over_witness :
  exists st',
    ServeHTTP
      (request (String.append "Basic dGVzdDpub3Ro" (String LF "aW5nLzEyMw==")))
      (enter handler NewRecorder (vars0 false)) = Done tt st'
    /\ asks (calls st') = [Call_auth "test" "nothing/123"].
Proof.
  apply (line_breaks_passed_over handler NewRecorder (vars0 false)
           (request (String.append "Basic dGVzdDpub3Ro" (String LF "aW5nLzEyMw==")))
           (String.append "dGVzdDpub3Ro" (String LF "aW5nLzEyMw=="))
           "test:nothing/123" "test" "nothing/123");
    reflexivity.
Defined.


Lemma written_status_stays_witness :
  exists st',
    ServeHTTP (request "")
      (enter handler (Write "early" NewRecorder) (vars0 false)) = Done tt st'
    /\ Code (writer st') = Code (Write "early" NewRecorder)
    /\ http.Header_Values (HeaderMap (writer st')) "WWW-Authenticate"
       = http.Header_Values (HeaderMap (Write "early" NewRecorder))
           "WWW-Authenticate" ++ [challenge handler].
Proof.
  apply (written_status_stays handler (Write "early" NewRecorder)
           (vars0 false) (request "") MissingHeader).
  - apply Rejects_missing. reflexivity.
  - reflexivity.
Defined.

Lemma other_headers_kept_witness :
  exists st',
    ServeHTTP (request "")
      (enter handler
         (httptest.Header_Add "Content-Type" "text/plain" NewRecorder)
         (vars0 false)) = Done tt st'
    /\ http.Header_Values (HeaderMap (writer st')) "content-type"
       = http.Header_Values
           (HeaderMap (httptest.Header_Add "Content-Type" "text/plain" NewRecorder))
           "content-type".
Proof.
  apply (other_headers_kept handler
           (httptest.Header_Add "Content-Type" "text/plain" NewRecorder)
           (vars0 false) (request "") MissingHeader "content-type").
  - apply Rejects_missing. reflexivity.
  - vm_compute. discriminate.
Defined.

Lemma stacked_handlers_witness :
  serve (Basic "outer" (serve (Basic "inner" onSuccess authFunc)) authFunc)
    NewRecorder (request "Basic dGVzdDpub3RoaW5nLzEyMw==") (vars0 false)
  = if fst (authFunc "test" "nothing/123" (vars0 false))
    then if fst (authFunc "test" "nothing/123"
                   (snd (authFunc "test" "nothing/123" (vars0 false))))
         then onSuccess NewRecorder (request "Basic dGVzdDpub3RoaW5nLzEyMw==")
                (snd (authFunc "test" "nothing/123"
                        (snd (authFunc "test" "nothing/123" (vars0 false)))))
         else (httptest.WriteHeader 401
                 (httptest.Header_Add "WWW-Authenticate"
                    (Sprintf_realm "Basic" "inner") NewRecorder),
               snd (authFunc "test" "nothing/123"
                      (snd (authFunc "test" "nothing/123" (vars0 false)))))
    else (httptest.WriteHeader 401
            (httptest.Header_Add "WWW-Authenticate"
               (Sprintf_realm "Basic" "outer") NewRecorder),
          snd (authFunc "test" "nothing/123" (vars0 false))).
Proof.
  apply (stacked_handlers "outer" "inner" onSuccess authFunc authFunc
           NewRecorder (vars0 false)
           (request "Basic dGVzdDpub3RoaW5nLzEyMw==") "test" "nothing/123").
  exists "dGVzdDpub3RoaW5nLzEyMw==", "test:nothing/123".
  repeat split; reflexivity.
Defined.
